(** * ls-trace-py: import-hook interception layer and metrics-client configuration

    A shallow embedding of
    - [ddtrace/internal/import_hooks/patch.py]  (wrappers around the import
      entry points, and the patch / unpatch controller), and
    - [ddtrace/vendor/lightstep/metrics_reporter.py]  (configuration of the
      metrics client from the process environment).

    Python code is embedded as functions in a state-and-exception monad: a
    computation takes the interpreter state and gives back an outcome (a value
    or a raised exception) together with the state it leaves behind.  State
    changes made before an exception is raised persist, as in Python. *)

From stdpp Require Import base option list strings gmap.
From Stdlib Require Import ZArith Lia.

Set Warnings "-register-all".

Local Open Scope string_scope.
Local Open Scope list_scope.
Local Open Scope Z_scope.

(** ** Exceptions and outcomes *)

(** The exception classes that occur.  The first group derives from
    [Exception]; the second group derives from [BaseException] only, so an
    [except Exception] clause does not catch them. *)
Inductive exn : Type :=
  | AttributeError
  | IndexError
  | KeyError
  | ImportError
  | TypeError
  | ValueError
  | UserError (tag : nat)
  | KeyboardInterrupt
  | SystemExit
  | GeneratorExit.

#[global] Instance exn_eq_dec : EqDecision exn.
Proof. solve_decision. Defined.

(** [isinstance(e, Exception)] *)
Definition is_Exception (e : exn) : bool :=
  match e with
  | KeyboardInterrupt | SystemExit | GeneratorExit => false
  | _ => true
  end.

(** [isinstance(e, AttributeError)] *)
Definition is_AttributeError (e : exn) : bool :=
  match e with
  | AttributeError => true
  | _ => false
  end.

Inductive outcome (A : Type) : Type :=
  | Returns (a : A)
  | Raises (e : exn).
Arguments Returns {A} a.
Arguments Raises {A} e.

(** ** The monad of Python computations over a state [S] *)

Definition Py (S A : Type) : Type := S -> outcome A * S.

#[global] Instance Py_ret {S} : MRet (Py S) :=
  fun A a s => (Returns a, s).

#[global] Instance Py_bind {S} : MBind (Py S) :=
  fun A B k m s =>
    match m s with
    | (Returns a, s1) => k a s1
    | (Raises e, s1) => (Raises e, s1)
    end.

Definition raise {S A} (e : exn) : Py S A := fun s => (Raises e, s).
Definition gets {S A} (f : S -> A) : Py S A := fun s => (Returns (f s), s).
Definition modify {S} (f : S -> S) : Py S unit := fun s => (Returns tt, f s).

(** [try: body  except <classes>: handler].  The handler runs in the state
    the body left; an exception raised by the handler propagates. *)
Definition try_except {S A} (body : Py S A) (catches : exn -> bool)
    (handler : exn -> Py S A) : Py S A :=
  fun s =>
    match body s with
    | (Returns a, s1) => (Returns a, s1)
    | (Raises e, s1) => if catches e then handler e s1 else (Raises e, s1)
    end.

(** [try: body  finally: cleanup].  The cleanup always runs; when it
    completes, the outcome of the body (value or exception) continues, and
    when it raises, its exception replaces that outcome. *)
Definition try_finally {S A} (body : Py S A) (cleanup : Py S unit) : Py S A :=
  fun s =>
    match body s with
    | (r, s1) =>
        match cleanup s1 with
        | (Returns _, s2) => (r, s2)
        | (Raises e, s2) => (Raises e, s2)
        end
    end.

(** ** Tuple comparison

    Python compares tuples lexicographically: the first position where the
    elements differ decides; when one tuple is a prefix of the other, the
    shorter one is the smaller. *)
Fixpoint tuple_le (a b : list Z) : bool :=
  match a, b with
  | [], _ => true
  | _ :: _, [] => false
  | x :: a', y :: b' => if x =? y then tuple_le a' b' else x <? y
  end.

(** The running interpreter.  [PY3] is the constant of [ddtrace.compat] (not
    among the sources).  [version_info] holds the leading
    [(major, minor, micro)] of [sys.version_info]; the trailing
    [(releaselevel, serial)] is never reached by a comparison against a
    two-element tuple, which is decided within the first two positions or by
    the lengths. *)
Record runtime : Type := Runtime {
  PY3 : bool;
  version_info : list Z
}.

(** ** metrics_reporter.py *)
Module MetricsReporter.

(** [os.environ.get(key, default)] *)
Definition environ_get (environ : gmap string string) (key default : string)
    : string :=
  match environ !! key with
  | Some v => v
  | None => default
  end.

Definition DEFAULT_METRICS_HOSTNAME (environ : gmap string string) : string :=
  environ_get environ "LIGHTSTEP_METRICS_HOST"
    (environ_get environ "LIGHTSTEP_HOST" "ingest.lightstep.com").

Definition DEFAULT_METRICS_PORT (environ : gmap string string) : string :=
  environ_get environ "LIGHTSTEP_METRICS_PORT"
    (environ_get environ "LIGHTSTEP_PORT" "443").

Definition DEFAULT_METRICS_SECURE (environ : gmap string string) : string :=
  environ_get environ "LIGHTSTEP_METRICS_SECURE"
    (environ_get environ "LIGHTSTEP_SECURE" "1").


Definition TOKEN (environ : gmap string string) : string :=
  environ_get environ "LIGHTSTEP_ACCESS_TOKEN" "INVALID_TOKEN".



(** The fallback chain in the words of the specification: the first
    defined link of the chain, or the hard default when none is. *)
Fixpoint first_defined (chain : list (option string)) (hard_default : string)
    : string :=
  match chain with
  | [] => hard_default
  | Some v :: _ => v
  | None :: rest => first_defined rest hard_default
  end.

Definition fallback_chain (environ : gmap string string)
    (metrics_specific generic hard_default : string) : string :=
  first_defined [environ !! metrics_specific; environ !! generic] hard_default.

End MetricsReporter.

(** ** Python values seen by the wrappers *)

(** What reading an attribute gives: a value, or an exception raised by the
    lookup (a property or [__getattr__] that fails). *)
Inductive slot (V : Type) : Type :=
  | Holds (v : V)
  | Throws (e : exn).
Arguments Holds {V} v.
Arguments Throws {V} e.

(** The values that reach the wrappers as arguments: [None], strings,
    integers, tuples, and objects with an attribute dictionary (module
    objects and module specs among them). *)
Inductive pyval : Type :=
  | PyNone
  | PyStr (s : string)
  | PyInt (z : Z)
  | PyTuple (items : list pyval)
  | PyObject (attrs : gmap string (slot pyval)).

(** [bool(v)] for the values whose truth value their type fixes; the truth
    value of an object is decided by its class, see [truth] below. *)
Definition truthy (v : pyval) : bool :=
  match v with
  | PyNone => false
  | PyStr s => negb (String.eqb s "")
  | PyInt z => negb (z =? 0)
  | PyTuple items => negb (bool_decide (items = []))
  | PyObject _ => true
  end.

(** ** The debug logger

    Modelled from the spec: the logger ([ddtrace.internal.logger.get_logger],
    not among the sources) is a process-wide debug-level sink used for
    swallowed-error diagnostics; it never affects control flow.  A call
    [log.debug(message, param, ..., exc_info=True)] appends one record with
    the message, its parameters and the exception being handled. *)
Inductive level : Type := DEBUG.

Record log_record : Type := LogRecord {
  lr_level : level;
  lr_message : string;
  lr_params : list pyval;
  lr_exc_info : exn
}.

(** [None], strings and integers: the values that are hashable and whose
    truth value and equality are fixed by the language. *)
Definition plain_name (v : pyval) : bool :=
  match v with
  | PyNone | PyStr _ | PyInt _ => true
  | PyTuple _ | PyObject _ => false
  end.

(** Reading the attribute [name] of [v]: objects answer from their attribute
    dictionary; [None], strings, integers and tuples have none of the
    attributes asked for here, and a missing attribute is an [AttributeError]. *)
Definition attribute (v : pyval) (name : string) : outcome pyval :=
  match v with
  | PyObject attrs =>
      match attrs !! name with
      | Some (Holds x) => Returns x
      | Some (Throws e) => Raises e
      | None => Raises AttributeError
      end
  | _ => Raises AttributeError
  end.

(** ** patch.py *)
Module ImportHooks.

(** *** The wrappers *)
Section Wrappers.

(** The part of the interpreter that the wrapped entry points and the
    hooks can read and change: the keys of the module cache
    [sys.modules], and the rest of the heap, of which the wrappers see
    nothing. *)
Context {heap : Type}.

Record interp : Type := Interp {
  sys_modules : gset string;
  user_heap : heap
}.

(** A Python callable as the wrappers use one: positional arguments and
    keyword arguments in, a value or an exception out. *)
Definition callable : Type :=
  list pyval -> list (string * pyval) -> interp -> outcome pyval * interp.

(** What an observer of the entry points sees, in order: a completed call
    of the original entry point with its arguments and outcome, and a
    completed call of [hooks.call] with its argument and outcome. *)
Inductive event : Type :=
  | Called (args : list pyval) (kwargs : list (string * pyval))
      (r : outcome pyval)
  | Dispatched (module_name : pyval) (r : outcome unit).

Record world : Type := World {
  interp_of : interp;
  log : list log_record;
  trace : list event
}.

(** [hooks.call] of the registry ([.registry], not among the sources): it
    is taken as it comes, with any outcome. *)
Variable hooks_call : pyval -> interp -> outcome unit * interp.

(** The truth value of an object, [bool(v)]: it runs [__bool__] or [__len__]
    of the object's class, code that is not among the sources; it is taken
    as it comes, with any outcome. *)
Variable object_bool : pyval -> interp -> outcome bool * interp.

(** [v in sys.modules] for a tuple or an object: it hashes [v] (and may
    compare it), which runs [__hash__] and [__eq__] of the classes involved
    and raises [TypeError] for an unhashable value such as a module spec; it
    is taken as it comes, with any outcome. *)
Variable object_in_sys_modules : pyval -> interp -> outcome bool * interp.

Variable rt : runtime.

(** Calling the wrapped entry point with the positional and keyword
    arguments the wrapper received; the event is recorded when the call
    has completed. *)
Definition call (wrapped : callable) (args : list pyval)
    (kwargs : list (string * pyval)) : Py world pyval :=
  fun w =>
    match wrapped args kwargs (interp_of w) with
    | (r, i) =>
        (r, {| interp_of := i; log := log w;
               trace := trace w ++ [Called args kwargs r] |})
    end.

(** [hooks.call(module_name)]; the event is recorded when the call has
    completed. *)
Definition dispatch (module_name : pyval) : Py world unit :=
  fun w =>
    match hooks_call module_name (interp_of w) with
    | (r, i) =>
        (r, {| interp_of := i; log := log w;
               trace := trace w ++ [Dispatched module_name r] |})
    end.

(** [log.debug(message, param, exc_info=True)] while handling [e] *)
Definition log_debug (message : string) (param : pyval) (e : exn)
    : Py world unit :=
  modify (fun w =>
    {| interp_of := interp_of w;
       log := log w ++ [LogRecord DEBUG message [param] e];
       trace := trace w |}).

(** [args[i]] on a tuple *)
Definition index (args : list pyval) (i : nat) : Py world pyval :=
  match args !! i with
  | Some v => mret v
  | None => raise IndexError
  end.

(** [v.name] *)
Definition getattr (v : pyval) (name : string) : Py world pyval :=
  fun w => (attribute v name, w).

(** A test answered by the class of an object; it may change the
    interpreter, and leaves the log and the trace alone. *)
Definition ask (test : interp -> outcome bool * interp) : Py world bool :=
  fun w =>
    match test (interp_of w) with
    | (r, i) => (r, {| interp_of := i; log := log w; trace := trace w |})
    end.

(** [bool(v)] *)
Definition truth (v : pyval) : Py world bool :=
  match v with
  | PyObject _ => ask (object_bool v)
  | _ => mret (truthy v)
  end.

(** [module_name in sys.modules].  The keys of the cache are strings: a
    string is looked up, [None] and integers are hashable and equal to no
    key, and tuples and objects are hashed by their classes. *)
Definition in_sys_modules (module_name : pyval) : Py world bool :=
  match module_name with
  | PyStr s => gets (fun w => bool_decide (s ∈ sys_modules (interp_of w)))
  | PyNone | PyInt _ => mret false
  | PyTuple _ | PyObject _ => ask (object_in_sys_modules module_name)
  end.

Definition exec_and_call_hooks (module_name : pyval) (wrapped : callable)
    (args : list pyval) (kwargs : list (string * pyval)) : Py world pyval :=
  try_finally
    (call wrapped args kwargs)
    (try_except
       (dispatch module_name)
       is_Exception
       (fun e => log_debug "Failed to call hooks for module %r" module_name e)).

(** The name lookup at the head of [wrapped_reload]: [module_name] starts
    as [None] and keeps that value when the lookup fails. *)
Definition reload_module_name (args : list pyval) : Py world pyval :=
  try_except
    (if PY3 rt then
       try_except
         (m ← index args 0; spec ← getattr m "__spec__"; getattr spec "name")
         is_AttributeError
         (fun _ => m ← index args 0; getattr m "__name__")
     else
       m ← index args 0; getattr m "__name__")
    is_Exception
    (fun e =>
       log_debug "Failed to determine module name when calling `reload`: %r"
         (PyTuple args) e;;
       mret PyNone).

Definition wrapped_reload (wrapped : callable) (instance : pyval)
    (args : list pyval) (kwargs : list (string * pyval)) : Py world pyval :=
  module_name ← reload_module_name args;
  exec_and_call_hooks module_name wrapped args kwargs.

(** The name lookup at the head of the two load wrappers.  The handler
    returns from the wrapper: [inr v] is that returned value, [inl name]
    is the name with which the wrapper goes on. *)
Definition load_module_name (wrapped : callable) (args : list pyval)
    (kwargs : list (string * pyval)) : Py world (pyval + pyval) :=
  try_except
    (m ← index args 0; mret (inl m))
    is_Exception
    (fun e =>
       log_debug "Failed to determine module name when importing module: %r"
         (PyTuple args) e;;
       v ← call wrapped args kwargs;
       mret (inr v)).

Definition wrapped_find_and_load_unlocked (wrapped : callable)
    (instance : pyval) (args : list pyval) (kwargs : list (string * pyval))
    : Py world pyval :=
  found ← load_module_name wrapped args kwargs;
  match found with
  | inr v => mret v
  | inl module_name => exec_and_call_hooks module_name wrapped args kwargs
  end.

(** The condition [module_name and module_name not in sys.modules] of
    [wrapped_import]: the membership test runs only for a truthy name. *)
Definition first_load_guard (module_name : pyval) : Py world bool :=
  named ← truth module_name;
  if named : bool then
    cached ← in_sys_modules module_name; mret (negb cached)
  else mret false.

Definition wrapped_import (wrapped : callable) (instance : pyval)
    (args : list pyval) (kwargs : list (string * pyval)) : Py world pyval :=
  found ← load_module_name wrapped args kwargs;
  match found with
  | inr v => mret v
  | inl module_name =>
      first_load ← first_load_guard module_name;
      if first_load : bool then
        exec_and_call_hooks module_name wrapped args kwargs
      else
        call wrapped args kwargs
  end.

End Wrappers.

(** Objects of a class that defines none of [__bool__], [__len__],
    [__hash__], [__eq__] (module objects among them): they are truthy,
    hashable, and equal to no key of [sys.modules]. *)
Definition object_bool_default {heap : Type} (v : pyval) (i : @interp heap)
    : outcome bool * @interp heap :=
  (Returns true, i).

Definition object_in_sys_modules_default {heap : Type} (v : pyval)
    (i : @interp heap) : outcome bool * @interp heap :=
  (Returns false, i).

(** Objects of a class whose [__hash__] is [None] (module specs among them):
    the membership test raises [TypeError]. *)
Definition object_in_sys_modules_unhashable {heap : Type} (v : pyval)
    (i : @interp heap) : outcome bool * @interp heap :=
  (Raises TypeError, i).

(** *** The patch controller *)

(** The three wrapper functions of this module, and any wrapper function
    of another party. *)
Inductive wrapper_fn : Type :=
  | W_find_and_load_unlocked
  | W_reload
  | W_import
  | W_other (n : nat).

(** Function objects as the controller handles them.  Every object carries
    its identity [oid]; a [wrapt.FunctionWrapper] also carries the object
    it wraps (its [__wrapped__]) and the wrapper function it was built
    with. *)
Inductive pyfunc : Type :=
  | Function (oid : nat)
  | FunctionWrapper (oid : nat) (wrapped : pyfunc) (wrapper : wrapper_fn).

(** [isinstance(f, wrapt.FunctionWrapper)] *)
Definition isinstance_FunctionWrapper (f : pyfunc) : bool :=
  match f with
  | FunctionWrapper _ _ _ => true
  | Function _ => false
  end.

(** The modules whose attributes the controller reads and writes. *)
Inductive module_ref : Type :=
  | importlib
  | importlib__bootstrap.

(** The process-wide state of the controller: the flag [_patched], the
    attributes of [importlib] and [importlib._bootstrap], the dictionary
    [__builtins__], the allocator of object identities, and the log. *)
Record pstate : Type := PState {
  _patched : bool;
  importlib_dict : gmap string pyfunc;
  importlib__bootstrap_dict : gmap string pyfunc;
  __builtins__ : gmap string pyfunc;
  next_oid : nat;
  plog : list log_record
}.

Definition module_dict (m : module_ref) (s : pstate) : gmap string pyfunc :=
  match m with
  | importlib => importlib_dict s
  | importlib__bootstrap => importlib__bootstrap_dict s
  end.

Definition set_patched (b : bool) : Py pstate unit :=
  modify (fun s =>
    {| _patched := b;
       importlib_dict := importlib_dict s;
       importlib__bootstrap_dict := importlib__bootstrap_dict s;
       __builtins__ := __builtins__ s;
       next_oid := next_oid s;
       plog := plog s |}).

(** [getattr(m, name)] *)
Definition getattr_module (m : module_ref) (name : string) : Py pstate pyfunc :=
  fun s =>
    match module_dict m s !! name with
    | Some f => (Returns f, s)
    | None => (Raises AttributeError, s)
    end.

(** [setattr(m, name, f)] *)
Definition setattr_module (m : module_ref) (name : string) (f : pyfunc)
    : Py pstate unit :=
  modify (fun s =>
    {| _patched := _patched s;
       importlib_dict :=
         match m with
         | importlib => <[name := f]> (importlib_dict s)
         | importlib__bootstrap => importlib_dict s
         end;
       importlib__bootstrap_dict :=
         match m with
         | importlib => importlib__bootstrap_dict s
         | importlib__bootstrap => <[name := f]> (importlib__bootstrap_dict s)
         end;
       __builtins__ := __builtins__ s;
       next_oid := next_oid s;
       plog := plog s |}).

(** [__builtins__[name]] *)
Definition getitem_builtins (name : string) : Py pstate pyfunc :=
  fun s =>
    match __builtins__ s !! name with
    | Some f => (Returns f, s)
    | None => (Raises KeyError, s)
    end.

(** [__builtins__[name] = f] *)
Definition setitem_builtins (name : string) (f : pyfunc) : Py pstate unit :=
  modify (fun s =>
    {| _patched := _patched s;
       importlib_dict := importlib_dict s;
       importlib__bootstrap_dict := importlib__bootstrap_dict s;
       __builtins__ := <[name := f]> (__builtins__ s);
       next_oid := next_oid s;
       plog := plog s |}).

(** [wrapt.FunctionWrapper(wrapped, wrapper)]: a new object. *)
Definition new_FunctionWrapper (wrapped : pyfunc) (wrapper : wrapper_fn)
    : Py pstate pyfunc :=
  fun s =>
    (Returns (FunctionWrapper (next_oid s) wrapped wrapper),
     {| _patched := _patched s;
        importlib_dict := importlib_dict s;
        importlib__bootstrap_dict := importlib__bootstrap_dict s;
        __builtins__ := __builtins__ s;
        next_oid := S (next_oid s);
        plog := plog s |}).

(** [f.__wrapped__] *)
Definition get__wrapped__ (f : pyfunc) : Py pstate pyfunc :=
  match f with
  | FunctionWrapper _ wrapped _ => mret wrapped
  | Function _ => raise AttributeError
  end.

(** [wrapt.wrap_function_wrapper(module, name, wrapper)]: looks the
    attribute up, wraps it, and stores the wrapper in its place. *)
Definition wrap_function_wrapper (m : module_ref) (name : string)
    (wrapper : wrapper_fn) : Py pstate unit :=
  original ← getattr_module m name;
  fw ← new_FunctionWrapper original wrapper;
  setattr_module m name fw.

(** [log.debug(message, exc_info=True)] while handling [e] *)
Definition plog_debug (message : string) (e : exn) : Py pstate unit :=
  modify (fun s =>
    {| _patched := _patched s;
       importlib_dict := importlib_dict s;
       importlib__bootstrap_dict := importlib__bootstrap_dict s;
       __builtins__ := __builtins__ s;
       next_oid := next_oid s;
       plog := plog s ++ [LogRecord DEBUG message [] e] |}).

Section Controller.

Variable rt : runtime.

Definition _patch : Py pstate unit :=
  already ← gets _patched;
  if already : bool then mret tt
  else
    (if PY3 rt then
       wrap_function_wrapper importlib__bootstrap "_find_and_load_unlocked"
         W_find_and_load_unlocked;;
       wrap_function_wrapper importlib "reload" W_reload
     else if tuple_le [2; 7] (version_info rt) then
       (original ← getitem_builtins "__import__";
        fw ← new_FunctionWrapper original W_import;
        setitem_builtins "__import__" fw);;
       (original ← getitem_builtins "reload";
        fw ← new_FunctionWrapper original W_reload;
        setitem_builtins "reload" fw)
     else mret tt);;
    set_patched true.

Definition patch : Py pstate unit :=
  try_except _patch is_Exception
    (fun e =>
       plog_debug "Failed to patch module importing, import hooks will not work" e).

Definition _unpatch : Py pstate unit :=
  installed ← gets _patched;
  if negb installed then mret tt
  else
    set_patched false;;
    if tuple_le [3; 4] (version_info rt) && tuple_le (version_info rt) [3; 8]
    then
      (f ← getattr_module importlib__bootstrap "_find_and_load_unlocked";
       if isinstance_FunctionWrapper f then
         g ← getattr_module importlib__bootstrap "_find_and_load_unlocked";
         original ← get__wrapped__ g;
         setattr_module importlib__bootstrap "_find_and_load_unlocked" original
       else mret tt);;
      (f ← getattr_module importlib "reload";
       if isinstance_FunctionWrapper f then
         g ← getattr_module importlib "reload";
         original ← get__wrapped__ g;
         setattr_module importlib "reload" original
       else mret tt)
    else if tuple_le [2; 7] (version_info rt) then
      (f ← getitem_builtins "__import__";
       if isinstance_FunctionWrapper f then
         g ← getitem_builtins "__import__";
         original ← get__wrapped__ g;
         setitem_builtins "__import__" original
       else mret tt);;
      (f ← getitem_builtins "reload";
       if isinstance_FunctionWrapper f then
         g ← getitem_builtins "reload";
         original ← get__wrapped__ g;
         setitem_builtins "reload" original
       else mret tt)
    else mret tt.

Definition unpatch : Py pstate unit :=
  try_except _unpatch is_Exception
    (fun e => plog_debug "Failed to unpatch module importing" e).

End Controller.

(** What [_unpatch] leaves at an entry point that held [f]: the wrapped
    object of a [FunctionWrapper], and [f] itself otherwise. *)
Definition unwrap_one_layer (f : pyfunc) : pyfunc :=
  match f with
  | FunctionWrapper _ wrapped _ => wrapped
  | Function _ => f
  end.

(** *** Sample interpreters *)

(** A Python 3 process before [patch()]: the two [importlib] entry points
    exist, and [__builtins__] has [__import__] but no [reload]. *)
Definition fresh_py3 : pstate :=
  {| _patched := false;
     importlib_dict := {[ "reload" := Function 2 ]};
     importlib__bootstrap_dict := {[ "_find_and_load_unlocked" := Function 1 ]};
     __builtins__ := {[ "__import__" := Function 3 ]};
     next_oid := 10;
     plog := [] |}.

(** A Python 2.7 process before [patch()]: [__builtins__] has both
    [__import__] and [reload]; [importlib] has neither entry point. *)
Definition fresh_py2 : pstate :=
  {| _patched := false;
     importlib_dict := ∅;
     importlib__bootstrap_dict := ∅;
     __builtins__ := {[ "__import__" := Function 3; "reload" := Function 4 ]};
     next_oid := 10;
     plog := [] |}.

(** A Python 3.3 process before [patch()]: [importlib.reload] does not
    exist yet. *)
Definition fresh_py3_3 : pstate :=
  {| _patched := false;
     importlib_dict := ∅;
     importlib__bootstrap_dict := {[ "_find_and_load_unlocked" := Function 1 ]};
     __builtins__ := {[ "__import__" := Function 3 ]};
     next_oid := 10;
     plog := [] |}.

Definition python_2_6 : runtime := Runtime false [2; 6; 9].
Definition python_2_7 : runtime := Runtime false [2; 7; 18].
Definition python_3_3 : runtime := Runtime true [3; 3; 7].
Definition python_3_7 : runtime := Runtime true [3; 7; 4].
Definition python_3_8 : runtime := Runtime true [3; 8; 0].
Definition python_3_9 : runtime := Runtime true [3; 9; 0].

(** *** Properties of controller computations used in the proofs *)

(** [m] raises nothing but exceptions derived from [Exception]. *)
Definition raises_only_Exception {A} (m : Py pstate A) : Prop :=
  ∀ s e s', m s = (Raises e, s') → is_Exception e = true.

(** [m] does not assign the flag [_patched]. *)
Definition keeps_patched {A} (m : Py pstate A) : Prop :=
  ∀ s, _patched (snd (m s)) = _patched s.

(** From [s] to [s'] no binding was removed, and no binding changed other
    than those of the four entry points: [reload] in [importlib],
    [_find_and_load_unlocked] in [importlib._bootstrap], and [__import__] and
    [reload] in [__builtins__]. *)
Definition same_outside_entry_points (s s' : pstate) : Prop :=
  (∀ k, k ≠ "reload" → importlib_dict s' !! k = importlib_dict s !! k) ∧
  (∀ k, k ≠ "_find_and_load_unlocked" →
        importlib__bootstrap_dict s' !! k = importlib__bootstrap_dict s !! k) ∧
  (∀ k, k ≠ "__import__" → k ≠ "reload" →
        __builtins__ s' !! k = __builtins__ s !! k) ∧
  (∀ k, is_Some (importlib_dict s !! k) → is_Some (importlib_dict s' !! k)) ∧
  (∀ k, is_Some (importlib__bootstrap_dict s !! k) →
        is_Some (importlib__bootstrap_dict s' !! k)) ∧
  (∀ k, is_Some (__builtins__ s !! k) → is_Some (__builtins__ s' !! k)).

(** [m] stays within the entry points, from every state. *)
Definition stays_within_entry_points {A} (m : Py pstate A) : Prop :=
  ∀ s, same_outside_entry_points s (snd (m s)).

End ImportHooks.

(** * Properties *)

(** ** The metrics client's configuration *)

Import MetricsReporter.



(** The three links of the chain, one case each. *)
Lemma fallback_chain_cases (environ : gmap string string)
    (metrics_specific generic hard_default : string) :
  (∀ v, environ !! metrics_specific = Some v →
        fallback_chain environ metrics_specific generic hard_default = v) ∧
  (∀ v, environ !! metrics_specific = None → environ !! generic = Some v →
        fallback_chain environ metrics_specific generic hard_default = v) ∧
  (environ !! metrics_specific = None → environ !! generic = None →
   fallback_chain environ metrics_specific generic hard_default = hard_default).
Proof.
  unfold fallback_chain; simpl.
  repeat split; intros; repeat match goal with H : _ !! _ = _ |- _ => rewrite H end;
    reflexivity.
Qed.

(** ** The wrappers of patch.py *)

Import ImportHooks.

Ltac py_unfold :=
  unfold try_finally, try_except, raise, gets, modify;
  unfold mbind, Py_bind, mret, Py_ret.

Section WrapperFacts.

Context {heap : Type}.
Implicit Types (w : @world heap) (wrapped : @callable heap).
Implicit Types (hooks_call : pyval → @interp heap → outcome unit * @interp heap).
Implicit Types
  (object_bool object_in_sys_modules : pyval → @interp heap → outcome bool * @interp heap).
Implicit Types (args : list pyval) (kwargs : list (string * pyval)).

Lemma exec_and_call_hooks_unfold hooks_call module_name wrapped args kwargs w :
  exec_and_call_hooks hooks_call module_name wrapped args kwargs w =
    let '(r, i1) := wrapped args kwargs (interp_of w) in
    let '(d, i2) := hooks_call module_name i1 in
    (match d with
     | Returns _ => r
     | Raises e => if is_Exception e then r else Raises e
     end,
     {| interp_of := i2;
        log := log w ++
               match d with
               | Returns _ => []
               | Raises e =>
                   if is_Exception e
                   then [LogRecord DEBUG "Failed to call hooks for module %r"
                           [module_name] e]
                   else []
               end;
        trace := trace w ++ [Called args kwargs r; Dispatched module_name d] |}).
Proof.
  unfold exec_and_call_hooks, call, dispatch, log_debug. py_unfold.
  destruct (wrapped args kwargs (interp_of w)) as [r i1]; simpl.
  destruct (hooks_call module_name i1) as [d i2]; simpl.
  destruct d as [[]|e]; simpl.
  - rewrite app_nil_r, <- app_assoc. reflexivity.
  - destruct (is_Exception e); simpl.
    + rewrite <- app_assoc. reflexivity.
    + rewrite app_nil_r, <- app_assoc. reflexivity.
Qed.

(** C1 (as amended).  [exec_and_call_hooks] calls the wrapped callable once,
    with the arguments it was given; [hooks.call(module_name)] runs in the
    state that call left, whether it returned or raised, and before the
    wrapper returns.  When the dispatch returns, or raises an exception
    derived from [Exception] (which is logged at debug level), the wrapper
    gives the outcome of the wrapped call unchanged; an exception of the
    dispatch that does not derive from [Exception] propagates instead. *)
Theorem exec_and_call_hooks_outcome hooks_call module_name wrapped args kwargs w :
  let '(r, i1) := wrapped args kwargs (interp_of w) in
  let '(d, i2) := hooks_call module_name i1 in
  exec_and_call_hooks hooks_call module_name wrapped args kwargs w =
    (match d with
     | Returns _ => r
     | Raises e => if is_Exception e then r else Raises e
     end,
     {| interp_of := i2;
        log := log w ++
               match d with
               | Returns _ => []
               | Raises e =>
                   if is_Exception e
                   then [LogRecord DEBUG "Failed to call hooks for module %r"
                           [module_name] e]
                   else []
               end;
        trace := trace w ++ [Called args kwargs r; Dispatched module_name d] |}).
Proof.
  pose proof (exec_and_call_hooks_unfold hooks_call module_name wrapped args kwargs w) as H.
  destruct (wrapped args kwargs (interp_of w)) as [r i1].
  destruct (hooks_call module_name i1) as [d i2]. exact H.
Qed.

(** C10.  When the argument tuple is empty, so that [args[0]] cannot be
    read, both load wrappers log the failure, call the original entry
    point with the original arguments and give its outcome, and no
    dispatch takes place; the reload wrapper, in the same situation,
    dispatches with [None]. *)
Theorem load_wrappers_without_name_skip_dispatch hooks_call object_bool
    object_in_sys_modules rt wrapped instance kwargs w :
  let '(r, i1) := wrapped [] kwargs (interp_of w) in
  let w' :=
    {| interp_of := i1;
       log := log w ++
              [LogRecord DEBUG
                 "Failed to determine module name when importing module: %r"
                 [PyTuple []] IndexError];
       trace := trace w ++ [Called [] kwargs r] |} in
  wrapped_find_and_load_unlocked hooks_call wrapped instance [] kwargs w = (r, w') ∧
  wrapped_import hooks_call object_bool object_in_sys_modules wrapped instance []
    kwargs w = (r, w') ∧
  trace (snd (wrapped_reload hooks_call rt wrapped instance [] kwargs w)) =
    trace w ++ [Called [] kwargs r; Dispatched PyNone (fst (hooks_call PyNone i1))].
Proof.
  unfold wrapped_find_and_load_unlocked, wrapped_import, wrapped_reload,
    load_module_name, reload_module_name, index, call, log_debug.
  py_unfold. simpl.
  destruct (PY3 rt); simpl;
    rewrite exec_and_call_hooks_unfold; simpl;
    destruct (wrapped [] kwargs (interp_of w)) as [r i1]; simpl;
    destruct (hooks_call PyNone i1) as [d i2]; simpl;
    (split; [destruct r; reflexivity | split; [destruct r; reflexivity | reflexivity]]).
Qed.

Lemma first_load_guard_plain object_bool object_in_sys_modules module_name w :
  plain_name module_name = true →
  first_load_guard object_bool object_in_sys_modules module_name w =
    (Returns (truthy module_name &&
              negb match module_name with
                   | PyStr s => bool_decide (s ∈ sys_modules (interp_of w))
                   | _ => false
                   end), w).
Proof.
  intros Hplain. unfold first_load_guard, truth, in_sys_modules. py_unfold.
  destruct module_name as [|s|z|items|attrs]; try discriminate; simpl.
  - reflexivity.
  - destruct (negb (String.eqb s "")); reflexivity.
  - destruct (negb (z =? 0)); reflexivity.
Qed.

Lemma first_load_guard_frame object_bool object_in_sys_modules module_name w :
  trace (snd (first_load_guard object_bool object_in_sys_modules module_name w)) =
    trace w ∧
  log (snd (first_load_guard object_bool object_in_sys_modules module_name w)) =
    log w.
Proof.
  unfold first_load_guard, truth, in_sys_modules, ask. py_unfold.
  destruct module_name as [|s|z|items|attrs]; simpl.
  - auto.
  - destruct (negb (String.eqb s "")); auto.
  - destruct (negb (z =? 0)); auto.
  - destruct (negb (bool_decide (items = []))); simpl; [| auto].
    destruct (object_in_sys_modules (PyTuple items) (interp_of w)) as [[c|e] i];
      auto.
  - destruct (object_bool (PyObject attrs) (interp_of w)) as [[[]|e] i]; simpl;
      [| auto | auto].
    destruct (object_in_sys_modules (PyObject attrs) i) as [[c|e] i']; auto.
Qed.

Lemma wrapped_import_guard hooks_call object_bool object_in_sys_modules wrapped
    instance module_name rest kwargs w :
  wrapped_import hooks_call object_bool object_in_sys_modules wrapped instance
    (module_name :: rest) kwargs w =
  match first_load_guard object_bool object_in_sys_modules module_name w with
  | (Raises e, w1) => (Raises e, w1)
  | (Returns true, w1) =>
      exec_and_call_hooks hooks_call module_name wrapped (module_name :: rest)
        kwargs w1
  | (Returns false, w1) => call wrapped (module_name :: rest) kwargs w1
  end.
Proof.
  unfold wrapped_import, load_module_name, index. py_unfold. simpl.
  destruct (first_load_guard object_bool object_in_sys_modules module_name w)
    as [[[]|e] w1]; reflexivity.
Qed.

(** C8 (as amended).  [wrapped_import], given a first positional argument,
    first evaluates the guard [module_name and module_name not in
    sys.modules].  For a name that is [None], a string or an integer the
    guard cannot fail: the original entry point is called with the original
    arguments, and the hooks are dispatched after that call exactly when the
    name is truthy (not [None], not the empty string, not zero) and is not a
    key of [sys.modules] when the wrapper is entered; for a cached name and
    for a falsy name nothing is dispatched.  For any name, when the guard
    raises (an unhashable object raises [TypeError] in the membership test),
    that exception propagates, and the original is not called and nothing
    is dispatched; when the guard gives a truth value, the original is
    called and the hooks are dispatched after it exactly when that value is
    true. *)
Theorem wrapped_import_dispatch_policy hooks_call object_bool object_in_sys_modules
    wrapped instance module_name rest kwargs w :
  let args := module_name :: rest in
  (plain_name module_name = true →
   let cached :=
     match module_name with
     | PyStr s => bool_decide (s ∈ sys_modules (interp_of w))
     | _ => false
     end in
   let '(r, i1) := wrapped args kwargs (interp_of w) in
   let '(d, i2) := hooks_call module_name i1 in
   wrapped_import hooks_call object_bool object_in_sys_modules wrapped instance
     args kwargs w =
     if truthy module_name && negb cached then
       (match d with
        | Returns _ => r
        | Raises e => if is_Exception e then r else Raises e
        end,
        {| interp_of := i2;
           log := log w ++
                  match d with
                  | Returns _ => []
                  | Raises e =>
                      if is_Exception e
                      then [LogRecord DEBUG "Failed to call hooks for module %r"
                            [module_name] e]
                      else []
                  end;
           trace := trace w ++ [Called args kwargs r; Dispatched module_name d] |})
     else
       (r, {| interp_of := i1; log := log w;
              trace := trace w ++ [Called args kwargs r] |})) ∧
  (∀ e w1,
     first_load_guard object_bool object_in_sys_modules module_name w =
       (Raises e, w1) →
     wrapped_import hooks_call object_bool object_in_sys_modules wrapped instance
       args kwargs w = (Raises e, w1) ∧
     trace w1 = trace w ∧ log w1 = log w) ∧
  (∀ first_load w1,
     first_load_guard object_bool object_in_sys_modules module_name w =
       (Returns first_load, w1) →
     trace w1 = trace w ∧ log w1 = log w ∧
     let '(r, i1) := wrapped args kwargs (interp_of w1) in
     let '(d, i2) := hooks_call module_name i1 in
     wrapped_import hooks_call object_bool object_in_sys_modules wrapped instance
       args kwargs w =
       if first_load then
         (match d with
          | Returns _ => r
          | Raises e => if is_Exception e then r else Raises e
          end,
          {| interp_of := i2;
             log := log w ++
                    match d with
                    | Returns _ => []
                    | Raises e =>
                        if is_Exception e
                        then [LogRecord DEBUG "Failed to call hooks for module %r"
                              [module_name] e]
                        else []
                    end;
             trace := trace w ++ [Called args kwargs r; Dispatched module_name d] |})
       else
         (r, {| interp_of := i1; log := log w;
                trace := trace w ++ [Called args kwargs r] |})) ∧
  (∀ attrs e i1 i2,
     module_name = PyObject attrs →
     object_bool module_name (interp_of w) = (Returns true, i1) →
     object_in_sys_modules module_name i1 = (Raises e, i2) →
     wrapped_import hooks_call object_bool object_in_sys_modules wrapped instance
       args kwargs w =
       (Raises e, {| interp_of := i2; log := log w; trace := trace w |})).
Proof.
  intros args.
  assert (Hreturns : ∀ first_load w1,
    first_load_guard object_bool object_in_sys_modules module_name w =
      (Returns first_load, w1) →
    trace w1 = trace w → log w1 = log w →
    let '(r, i1) := wrapped args kwargs (interp_of w1) in
    let '(d, i2) := hooks_call module_name i1 in
    wrapped_import hooks_call object_bool object_in_sys_modules wrapped instance
      args kwargs w =
      if first_load then
        (match d with
         | Returns _ => r
         | Raises e => if is_Exception e then r else Raises e
         end,
         {| interp_of := i2;
            log := log w ++
                   match d with
                   | Returns _ => []
                   | Raises e =>
                       if is_Exception e
                       then [LogRecord DEBUG "Failed to call hooks for module %r"
                             [module_name] e]
                       else []
                   end;
            trace := trace w ++ [Called args kwargs r; Dispatched module_name d] |})
      else
        (r, {| interp_of := i1; log := log w;
               trace := trace w ++ [Called args kwargs r] |})).
  { intros first_load w1 Hguard Htrace Hlog.
    unfold args. rewrite wrapped_import_guard, Hguard. fold args.
    destruct first_load.
    - rewrite exec_and_call_hooks_unfold.
      destruct (wrapped args kwargs (interp_of w1)) as [r i1].
      destruct (hooks_call module_name i1) as [d i2].
      rewrite Htrace, Hlog. reflexivity.
    - unfold call.
      destruct (wrapped args kwargs (interp_of w1)) as [r i1].
      destruct (hooks_call module_name i1) as [d i2].
      rewrite Htrace, Hlog. reflexivity. }
  pose proof (first_load_guard_frame object_bool object_in_sys_modules module_name w)
    as [Htrace Hlog].
  split; [| split; [| split]].
  - intros Hplain cached.
    apply (Hreturns _ w
             (first_load_guard_plain object_bool object_in_sys_modules
                module_name w Hplain)); reflexivity.
  - intros e w1 Hguard. rewrite Hguard in Htrace, Hlog. simpl in *.
    unfold args. rewrite wrapped_import_guard, Hguard. auto.
  - intros first_load w1 Hguard. rewrite Hguard in Htrace, Hlog. simpl in *.
    split; [exact Htrace |]. split; [exact Hlog |].
    apply Hreturns; assumption.
  - intros attrs e i1 i2 -> Hbool Hin.
    unfold args. rewrite wrapped_import_guard.
    unfold first_load_guard, truth, in_sys_modules, ask. py_unfold.
    rewrite Hbool; simpl. rewrite Hin; simpl. reflexivity.
Qed.

(** C7 (as amended).  The name used by [wrapped_reload] is found as
    follows.  Under Python 3 it is [args[0].__spec__.name]; when reading
    that raises [AttributeError], it is [args[0].__name__].  Under Python 2
    [__spec__] is not consulted and the name is [args[0].__name__].  When
    the lookup raises an exception derived from [Exception], that exception
    is logged, the name is [None], and the reload goes on through
    [exec_and_call_hooks] with the original arguments. *)
Theorem wrapped_reload_name_resolution hooks_call rt wrapped instance args kwargs w :
  let lookup :=
    match args with
    | [] => Raises IndexError
    | m :: _ =>
        if PY3 rt then
          match attribute m "__spec__" with
          | Returns spec =>
              match attribute spec "name" with
              | Raises AttributeError => attribute m "__name__"
              | found => found
              end
          | Raises AttributeError => attribute m "__name__"
          | Raises e => Raises e
          end
        else attribute m "__name__"
    end in
  wrapped_reload hooks_call rt wrapped instance args kwargs w =
    match lookup with
    | Returns module_name =>
        exec_and_call_hooks hooks_call module_name wrapped args kwargs w
    | Raises e =>
        if is_Exception e then
          exec_and_call_hooks hooks_call PyNone wrapped args kwargs
            {| interp_of := interp_of w;
               log := log w ++
                      [LogRecord DEBUG
                         "Failed to determine module name when calling `reload`: %r"
                         [PyTuple args] e];
               trace := trace w |}
        else (Raises e, w)
    end.
Proof.
  unfold wrapped_reload, reload_module_name, index, getattr, log_debug.
  py_unfold.
  destruct args as [|m rest]; simpl.
  - destruct (PY3 rt); reflexivity.
  - destruct (PY3 rt); simpl.
    + destruct (attribute m "__spec__") as [spec|e]; simpl.
      * destruct (attribute spec "name") as [v|e]; simpl; [reflexivity |].
        destruct e; simpl; try reflexivity.
        destruct (attribute m "__name__") as [v|e]; simpl; [reflexivity |].
        destruct (is_Exception e); reflexivity.
      * destruct e; simpl; try reflexivity.
        destruct (attribute m "__name__") as [v|e]; simpl; [reflexivity |].
        destruct (is_Exception e); reflexivity.
    + destruct (attribute m "__name__") as [v|e]; simpl; [reflexivity |].
      destruct (is_Exception e); reflexivity.
Qed.

End WrapperFacts.

(** *** Inputs at which the claims as first stated fail *)

(** C1, counterexample.  The wrapped call returns [1] and a hook interrupts
    the dispatch with [KeyboardInterrupt]: the wrapper raises
    [KeyboardInterrupt], the value [1] is lost, and nothing is logged. *)
Lemma dispatch_KeyboardInterrupt_escapes :
  let wrapped : @callable unit := fun _ _ i => (Returns (PyInt 1), i) in
  let hooks_call : pyval → @interp unit → outcome unit * @interp unit :=
    fun _ i => (Raises KeyboardInterrupt, i) in
  let w := World (Interp ∅ tt) [] [] in
  fst (wrapped [PyStr "alpha"] [] (interp_of w)) = Returns (PyInt 1) ∧
  exec_and_call_hooks hooks_call (PyStr "alpha") wrapped [PyStr "alpha"] [] w =
    (Raises KeyboardInterrupt,
     World (Interp ∅ tt) []
       [Called [PyStr "alpha"] [] (Returns (PyInt 1));
        Dispatched (PyStr "alpha") (Raises KeyboardInterrupt)]).
Proof. split; reflexivity. Qed.

(** C8, counterexample.  The empty name is not a key of the (empty) module
    cache, the original [__import__] is called and raises [ValueError], and
    no dispatch follows. *)
Lemma import_of_uncached_empty_name_skips_dispatch :
  let wrapped : @callable unit := fun _ _ i => (Raises ValueError, i) in
  let hooks_call : pyval → @interp unit → outcome unit * @interp unit :=
    fun _ i => (Returns tt, i) in
  let w := World (Interp ∅ tt) [] [] in
  ("" ∉ sys_modules (interp_of w)) ∧
  wrapped_import hooks_call object_bool_default object_in_sys_modules_default
    wrapped PyNone [PyStr ""] [] w =
    (Raises ValueError,
     World (Interp ∅ tt) [] [Called [PyStr ""] [] (Raises ValueError)]).
Proof. split; [set_solver | reflexivity]. Qed.

(** C8, sample runs.  An import of the uncached name [alpha] calls the
    original and then dispatches.  An import whose first argument is an
    unhashable module spec raises [TypeError] from the guard: the original
    is not called and nothing is dispatched. *)
Lemma wrapped_import_dispatch_policy_witness :
  let wrapped : @callable unit := fun _ _ i => (Returns (PyInt 1), i) in
  let hooks_call : pyval → @interp unit → outcome unit * @interp unit :=
    fun _ i => (Returns tt, i) in
  let w := World (Interp ∅ tt) [] [] in
  let spec := PyObject {[ "name" := Holds (PyStr "alpha") ]} in
  (plain_name (PyStr "alpha") = true ∧
   wrapped_import hooks_call object_bool_default object_in_sys_modules_default
     wrapped PyNone [PyStr "alpha"] [] w =
     (Returns (PyInt 1),
      World (Interp ∅ tt) []
        [Called [PyStr "alpha"] [] (Returns (PyInt 1));
         Dispatched (PyStr "alpha") (Returns tt)])) ∧
  (object_bool_default spec (interp_of w) = (Returns true, interp_of w) ∧
   object_in_sys_modules_unhashable spec (interp_of w) =
     (Raises TypeError, interp_of w) ∧
   wrapped_import hooks_call object_bool_default object_in_sys_modules_unhashable
     wrapped PyNone [spec] [] w = (Raises TypeError, w)).
Proof.
  intros wrapped hooks_call w spec. split.
  - split; [reflexivity |].
    exact (proj1 (wrapped_import_dispatch_policy hooks_call object_bool_default
                    object_in_sys_modules_default wrapped PyNone (PyStr "alpha")
                    [] [] w) eq_refl).
  - split; [reflexivity |]. split; [reflexivity |].
    exact (proj2 (proj2 (proj2
             (wrapped_import_dispatch_policy hooks_call object_bool_default
                object_in_sys_modules_unhashable wrapped PyNone spec [] [] w)))
             _ TypeError (interp_of w) (interp_of w) eq_refl eq_refl eq_refl).
Defined.

(** C7, counterexample.  Under Python 2 a module object that exposes
    [__spec__.name] is reloaded: the name found is [__name__], and the spec
    name is not used. *)
Lemma reload_under_python2_ignores_spec_name :
  let spec := PyObject {[ "name" := Holds (PyStr "spec_name") ]} in
  let m := PyObject {[ "__spec__" := Holds spec;
                       "__name__" := Holds (PyStr "plain_name") ]} in
  let w : @world unit := World (Interp ∅ tt) [] [] in
  attribute m "__spec__" = Returns spec ∧
  attribute spec "name" = Returns (PyStr "spec_name") ∧
  reload_module_name python_2_7 [m] w = (Returns (PyStr "plain_name"), w).
Proof. repeat split; vm_compute; reflexivity. Qed.

(** ** The patch controller *)

(** *** Only exceptions derived from [Exception] arise in the controller *)

Lemma roe_ret {A} (a : A) : raises_only_Exception (mret a).
Proof. intros s e s' H; inversion H. Qed.

Lemma roe_bind {A B} (m : Py pstate A) (k : A → Py pstate B) :
  raises_only_Exception m → (∀ a, raises_only_Exception (k a)) →
  raises_only_Exception (m ≫= k).
Proof.
  intros Hm Hk s e s' H. unfold mbind, Py_bind in H.
  destruct (m s) as [[a|e1] s1] eqn:Hms.
  - eapply Hk; eassumption.
  - inversion H; subst. eapply Hm; eassumption.
Qed.

Lemma roe_if {A} (b : bool) (m1 m2 : Py pstate A) :
  raises_only_Exception m1 → raises_only_Exception m2 →
  raises_only_Exception (if b then m1 else m2).
Proof. destruct b; auto. Qed.

Lemma roe_gets {A} (f : pstate → A) : raises_only_Exception (gets f).
Proof. intros s e s' H; inversion H. Qed.

Lemma roe_modify (f : pstate → pstate) : raises_only_Exception (modify f).
Proof. intros s e s' H; inversion H. Qed.

Lemma roe_getattr_module m name : raises_only_Exception (getattr_module m name).
Proof.
  intros s e s' H. unfold getattr_module in H.
  destruct (module_dict m s !! name); inversion H; reflexivity.
Qed.

Lemma roe_getitem_builtins name : raises_only_Exception (getitem_builtins name).
Proof.
  intros s e s' H. unfold getitem_builtins in H.
  destruct (__builtins__ s !! name); inversion H; reflexivity.
Qed.

Lemma roe_new_FunctionWrapper f wr : raises_only_Exception (new_FunctionWrapper f wr).
Proof. intros s e s' H; inversion H. Qed.

Lemma roe_get__wrapped__ f : raises_only_Exception (get__wrapped__ f).
Proof. intros s e s' H. destruct f; inversion H; reflexivity. Qed.

Create HintDb roe.
#[local] Hint Resolve roe_ret roe_gets roe_modify roe_getattr_module
  roe_getitem_builtins roe_new_FunctionWrapper roe_get__wrapped__ : roe.

Ltac roe :=
  repeat first
    [ apply roe_bind; [| intros ?]
    | apply roe_if
    | solve [unfold set_patched, setattr_module, setitem_builtins; auto with roe] ].

Lemma roe__patch rt : raises_only_Exception (_patch rt).
Proof. unfold _patch, wrap_function_wrapper. roe. Qed.

Lemma roe__unpatch rt : raises_only_Exception (_unpatch rt).
Proof. unfold _unpatch. roe. Qed.

Lemma try_except_Exception_returns (m : Py pstate unit) (message : string) s :
  raises_only_Exception m →
  try_except m is_Exception (plog_debug message) s =
    match m s with
    | (Returns _, s') => (Returns tt, s')
    | (Raises e, s') => plog_debug message e s'
    end.
Proof.
  intros Hm. unfold try_except.
  destruct (m s) as [[[]|e] s'] eqn:Hms; [reflexivity |].
  rewrite (Hm _ _ _ Hms). reflexivity.
Qed.

(** C6.  [patch()] and [unpatch()] return to their caller without raising,
    from every state and on every runtime.  An exception raised inside
    [_patch] or [_unpatch] is caught, and one debug record carrying it is
    added to the log.  [unpatch()] in a state that is not patched changes
    nothing. *)
Theorem patch_and_unpatch_never_raise (rt : runtime) (s : pstate) :
  (∃ s', patch rt s = (Returns tt, s')) ∧
  (∃ s', unpatch rt s = (Returns tt, s')) ∧
  (∀ e s', _patch rt s = (Raises e, s') →
     patch rt s =
       plog_debug "Failed to patch module importing, import hooks will not work"
         e s') ∧
  (∀ e s', _unpatch rt s = (Raises e, s') →
     unpatch rt s = plog_debug "Failed to unpatch module importing" e s') ∧
  (_patched s = false → unpatch rt s = (Returns tt, s)).
Proof.
  unfold patch, unpatch.
  rewrite !try_except_Exception_returns by (apply roe__patch || apply roe__unpatch).
  repeat split.
  - destruct (_patch rt s) as [[[]|e] s']; eexists; reflexivity.
  - destruct (_unpatch rt s) as [[[]|e] s']; eexists; reflexivity.
  - intros e s' H. rewrite H. reflexivity.
  - intros e s' H. rewrite H. reflexivity.
  - intros H. unfold _unpatch, gets. unfold mbind, Py_bind. rewrite H. reflexivity.
Qed.

(** *** What [patch] and [_unpatch] do to the entry points *)

#[local] Arguments tuple_le : simpl never.

Ltac py_run :=
  unfold wrap_function_wrapper, getattr_module, setattr_module,
    getitem_builtins, setitem_builtins, new_FunctionWrapper, get__wrapped__,
    set_patched, plog_debug, module_dict;
  py_unfold; simpl.

Ltac py_steps :=
  repeat first
    [ progress simpl
    | match goal with H : _ !! _ = Some _ |- _ => rewrite H end
    | rewrite lookup_insert_ne by discriminate
    | rewrite lookup_insert_eq ].

Lemma patch_when_patched rt s :
  _patched s = true → patch rt s = (Returns tt, s).
Proof.
  intros H. unfold patch, _patch. py_unfold. rewrite H. reflexivity.
Qed.

Lemma patch_modern rt s f g :
  _patched s = false → PY3 rt = true →
  importlib__bootstrap_dict s !! "_find_and_load_unlocked" = Some f →
  importlib_dict s !! "reload" = Some g →
  patch rt s =
    (Returns tt,
     {| _patched := true;
        importlib_dict :=
          <["reload" := FunctionWrapper (S (next_oid s)) g W_reload]>
            (importlib_dict s);
        importlib__bootstrap_dict :=
          <["_find_and_load_unlocked" :=
              FunctionWrapper (next_oid s) f W_find_and_load_unlocked]>
            (importlib__bootstrap_dict s);
        __builtins__ := __builtins__ s;
        next_oid := S (S (next_oid s));
        plog := plog s |}).
Proof.
  intros Hp H3 Hf Hg. unfold patch, _patch. py_run.
  rewrite Hp, H3, Hf; simpl. rewrite Hg; simpl. reflexivity.
Qed.

Lemma patch_legacy rt s f g :
  _patched s = false → PY3 rt = false → tuple_le [2; 7] (version_info rt) = true →
  __builtins__ s !! "__import__" = Some f →
  __builtins__ s !! "reload" = Some g →
  patch rt s =
    (Returns tt,
     {| _patched := true;
        importlib_dict := importlib_dict s;
        importlib__bootstrap_dict := importlib__bootstrap_dict s;
        __builtins__ :=
          <["reload" := FunctionWrapper (S (next_oid s)) g W_reload]>
            (<["__import__" := FunctionWrapper (next_oid s) f W_import]>
               (__builtins__ s));
        next_oid := S (S (next_oid s));
        plog := plog s |}).
Proof.
  intros Hp H3 Hv Hf Hg. unfold patch, _patch. py_run.
  rewrite Hp, H3, Hv, Hf; simpl.
  rewrite lookup_insert_ne by discriminate. rewrite Hg; simpl. reflexivity.
Qed.

Lemma iter_patch_fixed rt s n :
  _patched s = true → Nat.iter n (λ s, snd (patch rt s)) s = s.
Proof.
  intros H. induction n as [|n IH]; simpl; [reflexivity |].
  rewrite IH, patch_when_patched by assumption. reflexivity.
Qed.

Lemma iter_patch_once rt s n :
  _patched (snd (patch rt s)) = true →
  Nat.iter (S n) (λ s, snd (patch rt s)) s = snd (patch rt s).
Proof.
  intros H. rewrite Nat.iter_succ_r. apply iter_patch_fixed, H.
Qed.

(** C3.  In a patched state [patch()] returns at once and changes nothing.
    Hence, starting from an unpatched state whose entry points hold [f] and
    [g], any number [n + 1] of calls of [patch()] leaves each wrapped entry
    point holding one [FunctionWrapper] around the original, the same object
    that the first call installed; this holds for the modern pair of entry
    points and for the legacy pair. *)
Theorem patch_is_idempotent (rt : runtime) (s : pstate) (n : nat) :
  (_patched s = true → patch rt s = (Returns tt, s)) ∧
  (∀ f g,
     _patched s = false → PY3 rt = true →
     importlib__bootstrap_dict s !! "_find_and_load_unlocked" = Some f →
     importlib_dict s !! "reload" = Some g →
     let s' := Nat.iter (S n) (λ s, snd (patch rt s)) s in
     s' = snd (patch rt s) ∧
     _patched s' = true ∧
     importlib__bootstrap_dict s' !! "_find_and_load_unlocked" =
       Some (FunctionWrapper (next_oid s) f W_find_and_load_unlocked) ∧
     importlib_dict s' !! "reload" =
       Some (FunctionWrapper (S (next_oid s)) g W_reload)) ∧
  (∀ f g,
     _patched s = false → PY3 rt = false →
     tuple_le [2; 7] (version_info rt) = true →
     __builtins__ s !! "__import__" = Some f →
     __builtins__ s !! "reload" = Some g →
     let s' := Nat.iter (S n) (λ s, snd (patch rt s)) s in
     s' = snd (patch rt s) ∧
     _patched s' = true ∧
     __builtins__ s' !! "__import__" =
       Some (FunctionWrapper (next_oid s) f W_import) ∧
     __builtins__ s' !! "reload" =
       Some (FunctionWrapper (S (next_oid s)) g W_reload)).
Proof.
  split; [apply patch_when_patched |]. split.
  - intros f g Hp H3 Hf Hg s'. subst s'.
    rewrite iter_patch_once;
      rewrite (patch_modern rt s f g Hp H3 Hf Hg); simpl; [| reflexivity].
    repeat split; apply lookup_insert_eq.
  - intros f g Hp H3 Hv Hf Hg s'. subst s'.
    rewrite iter_patch_once;
      rewrite (patch_legacy rt s f g Hp H3 Hv Hf Hg); simpl; [| reflexivity].
    repeat split.
    + rewrite lookup_insert_ne by discriminate. apply lookup_insert_eq.
    + apply lookup_insert_eq.
Qed.

Lemma insert_unwrap_Function (m : gmap string pyfunc) name f :
  m !! name = Some f → isinstance_FunctionWrapper f = false →
  <[name := unwrap_one_layer f]> m = m.
Proof. intros Hm Hf. destruct f; [| discriminate]. apply insert_id, Hm. Qed.

Lemma _unpatch_modern rt s f g :
  _patched s = true →
  tuple_le [3; 4] (version_info rt) && tuple_le (version_info rt) [3; 8] = true →
  importlib__bootstrap_dict s !! "_find_and_load_unlocked" = Some f →
  importlib_dict s !! "reload" = Some g →
  _unpatch rt s =
    (Returns tt,
     {| _patched := false;
        importlib_dict := <["reload" := unwrap_one_layer g]> (importlib_dict s);
        importlib__bootstrap_dict :=
          <["_find_and_load_unlocked" := unwrap_one_layer f]>
            (importlib__bootstrap_dict s);
        __builtins__ := __builtins__ s;
        next_oid := next_oid s;
        plog := plog s |}).
Proof.
  intros Hp Hv Hf Hg. unfold _unpatch. py_run. rewrite Hp; simpl.
  rewrite Hv; simpl.
  destruct f as [o|o f' wf], g as [o'|o' g' wg]; py_steps;
    rewrite ?(insert_id _ _ _ Hf), ?(insert_id _ _ _ Hg); reflexivity.
Qed.

Lemma _unpatch_legacy rt s f g :
  _patched s = true →
  tuple_le [3; 4] (version_info rt) && tuple_le (version_info rt) [3; 8] = false →
  tuple_le [2; 7] (version_info rt) = true →
  __builtins__ s !! "__import__" = Some f →
  __builtins__ s !! "reload" = Some g →
  _unpatch rt s =
    (Returns tt,
     {| _patched := false;
        importlib_dict := importlib_dict s;
        importlib__bootstrap_dict := importlib__bootstrap_dict s;
        __builtins__ :=
          <["reload" := unwrap_one_layer g]>
            (<["__import__" := unwrap_one_layer f]> (__builtins__ s));
        next_oid := next_oid s;
        plog := plog s |}).
Proof.
  intros Hp Hv H27 Hf Hg. unfold _unpatch. py_run. rewrite Hp; simpl.
  rewrite Hv; simpl. rewrite H27; simpl.
  destruct f as [o|o f' wf], g as [o'|o' g' wg]; py_steps;
    rewrite ?(insert_id _ _ _ Hf), ?(insert_id _ _ _ Hg); try reflexivity.
  rewrite (insert_id (<["__import__" := f']> (__builtins__ s)) "reload");
    [reflexivity |].
  rewrite lookup_insert_ne by discriminate. exact Hg.
Qed.

(** C2 (as amended).  In a patched state [_unpatch] decides by type: an
    entry point that holds a [wrapt.FunctionWrapper], whoever built it, is
    set to the object that wrapper wraps, and an entry point that holds any
    other function is left as it is.  This is so for the modern pair of
    entry points on versions from (3, 4) up to (3, 8), and otherwise for the
    legacy pair on versions from (2, 7). *)
Theorem _unpatch_restores_by_type (rt : runtime) (s : pstate) (f g : pyfunc) :
  _patched s = true →
  (tuple_le [3; 4] (version_info rt) && tuple_le (version_info rt) [3; 8] = true →
   importlib__bootstrap_dict s !! "_find_and_load_unlocked" = Some f →
   importlib_dict s !! "reload" = Some g →
   _unpatch rt s =
     (Returns tt,
      {| _patched := false;
         importlib_dict := <["reload" := unwrap_one_layer g]> (importlib_dict s);
         importlib__bootstrap_dict :=
           <["_find_and_load_unlocked" := unwrap_one_layer f]>
             (importlib__bootstrap_dict s);
         __builtins__ := __builtins__ s;
         next_oid := next_oid s;
         plog := plog s |})) ∧
  (tuple_le [3; 4] (version_info rt) && tuple_le (version_info rt) [3; 8] = false →
   tuple_le [2; 7] (version_info rt) = true →
   __builtins__ s !! "__import__" = Some f →
   __builtins__ s !! "reload" = Some g →
   _unpatch rt s =
     (Returns tt,
      {| _patched := false;
         importlib_dict := importlib_dict s;
         importlib__bootstrap_dict := importlib__bootstrap_dict s;
         __builtins__ :=
           <["reload" := unwrap_one_layer g]>
             (<["__import__" := unwrap_one_layer f]> (__builtins__ s));
         next_oid := next_oid s;
         plog := plog s |})).
Proof.
  intros Hp. split.
  - apply _unpatch_modern, Hp.
  - apply _unpatch_legacy, Hp.
Qed.

(** Where the version test of [_unpatch] selects the pair of entry points
    that [_patch] wrapped, [unpatch()] after [patch()] puts the original
    objects back. *)
Lemma unpatch_after_patch_restores_modern rt s f g :
  _patched s = false → PY3 rt = true →
  tuple_le [3; 4] (version_info rt) && tuple_le (version_info rt) [3; 8] = true →
  importlib__bootstrap_dict s !! "_find_and_load_unlocked" = Some f →
  importlib_dict s !! "reload" = Some g →
  let s' := snd (unpatch rt (snd (patch rt s))) in
  _patched s' = false ∧
  importlib__bootstrap_dict s' = importlib__bootstrap_dict s ∧
  importlib_dict s' = importlib_dict s ∧
  __builtins__ s' = __builtins__ s.
Proof.
  intros Hp H3 Hv Hf Hg s'. subst s'.
  rewrite (patch_modern rt s f g Hp H3 Hf Hg); simpl.
  unfold unpatch, try_except.
  erewrite _unpatch_modern; simpl;
    [| reflexivity | exact Hv | apply lookup_insert_eq | apply lookup_insert_eq ].
  simpl. rewrite !insert_insert_eq.
  rewrite (insert_id _ _ _ Hf), (insert_id _ _ _ Hg). repeat split.
Qed.

Lemma unpatch_after_patch_restores_legacy rt s f g :
  _patched s = false → PY3 rt = false →
  tuple_le [3; 4] (version_info rt) && tuple_le (version_info rt) [3; 8] = false →
  tuple_le [2; 7] (version_info rt) = true →
  __builtins__ s !! "__import__" = Some f →
  __builtins__ s !! "reload" = Some g →
  let s' := snd (unpatch rt (snd (patch rt s))) in
  _patched s' = false ∧
  importlib__bootstrap_dict s' = importlib__bootstrap_dict s ∧
  importlib_dict s' = importlib_dict s ∧
  __builtins__ s' = __builtins__ s.
Proof.
  intros Hp H3 Hv H27 Hf Hg s'. subst s'.
  rewrite (patch_legacy rt s f g Hp H3 H27 Hf Hg); simpl.
  unfold unpatch, try_except.
  erewrite _unpatch_legacy; simpl;
    [| reflexivity | exact Hv | exact H27
     | rewrite lookup_insert_ne by discriminate; apply lookup_insert_eq
     | apply lookup_insert_eq ].
  simpl. repeat split.
  apply map_eq; intros k.
  destruct (decide (k = "reload")) as [->|Hr].
  { rewrite lookup_insert_eq. symmetry. exact Hg. }
  rewrite lookup_insert_ne by congruence.
  destruct (decide (k = "__import__")) as [->|Hi].
  { rewrite lookup_insert_eq. symmetry. exact Hf. }
  rewrite !lookup_insert_ne by congruence. reflexivity.
Qed.

(** C4, at the failing input.  On Python 3.8.0 the version test of
    [_unpatch] fails, because [(3, 8, 0)] is greater than [(3, 8)]; the
    legacy branch is taken and raises [KeyError] on [__builtins__["reload"]].
    After [patch()] and [unpatch()] both entry points still hold the
    wrappers, not the original objects [Function 1] and [Function 2]. *)
Theorem unpatch_after_patch_on_python_3_8_leaves_wrappers :
  let s0 := fresh_py3 in
  let s := snd (unpatch python_3_8 (snd (patch python_3_8 s0))) in
  importlib__bootstrap_dict s0 !! "_find_and_load_unlocked" = Some (Function 1) ∧
  importlib_dict s0 !! "reload" = Some (Function 2) ∧
  tuple_le (version_info python_3_8) [3; 8] = false ∧
  importlib__bootstrap_dict s !! "_find_and_load_unlocked" =
    Some (FunctionWrapper 10 (Function 1) W_find_and_load_unlocked) ∧
  importlib_dict s !! "reload" = Some (FunctionWrapper 11 (Function 2) W_reload) ∧
  _patched s = false ∧
  plog s = [LogRecord DEBUG "Failed to unpatch module importing" [] KeyError].
Proof. repeat split; vm_compute; reflexivity. Qed.

(** C5, at the failing input.  On Python 3.9.0, after [patch()], the
    restoration in [_unpatch] raises [KeyError]; the flag has been cleared
    before, so the state left behind is unpatched while both wrappers are
    still installed, and one more [patch()] wraps the wrappers again. *)
Theorem _unpatch_clears_flag_before_restoring :
  let s1 := snd (patch python_3_9 fresh_py3) in
  let s2 := snd (_unpatch python_3_9 s1) in
  let s3 := snd (patch python_3_9 (snd (unpatch python_3_9 s1))) in
  _patched s1 = true ∧
  fst (_unpatch python_3_9 s1) = Raises KeyError ∧
  _patched s2 = false ∧
  importlib__bootstrap_dict s2 !! "_find_and_load_unlocked" =
    Some (FunctionWrapper 10 (Function 1) W_find_and_load_unlocked) ∧
  importlib_dict s2 !! "reload" = Some (FunctionWrapper 11 (Function 2) W_reload) ∧
  importlib_dict s3 !! "reload" =
    Some (FunctionWrapper 13 (FunctionWrapper 11 (Function 2) W_reload) W_reload).
Proof. repeat split; vm_compute; reflexivity. Qed.

(** *** The flag after [_unpatch] *)

Lemma kp_ret {A} (a : A) : keeps_patched (mret a).
Proof. intros s; reflexivity. Qed.

Lemma kp_raise {A} (e : exn) : keeps_patched (raise e : Py pstate A).
Proof. intros s; reflexivity. Qed.

Lemma kp_bind {A B} (m : Py pstate A) (k : A → Py pstate B) :
  keeps_patched m → (∀ a, keeps_patched (k a)) → keeps_patched (m ≫= k).
Proof.
  intros Hm Hk s. unfold mbind, Py_bind.
  specialize (Hm s). destruct (m s) as [[a|e] s1]; simpl in *.
  - rewrite Hk. exact Hm.
  - exact Hm.
Qed.

Lemma kp_if {A} (b : bool) (m1 m2 : Py pstate A) :
  keeps_patched m1 → keeps_patched m2 → keeps_patched (if b then m1 else m2).
Proof. destruct b; auto. Qed.

Lemma kp_getattr_module m name : keeps_patched (getattr_module m name).
Proof.
  intros s. unfold getattr_module. destruct (module_dict m s !! name); reflexivity.
Qed.

Lemma kp_getitem_builtins name : keeps_patched (getitem_builtins name).
Proof.
  intros s. unfold getitem_builtins. destruct (__builtins__ s !! name); reflexivity.
Qed.

Lemma kp_setattr_module m name f : keeps_patched (setattr_module m name f).
Proof. intros s; reflexivity. Qed.

Lemma kp_setitem_builtins name f : keeps_patched (setitem_builtins name f).
Proof. intros s; reflexivity. Qed.

Lemma kp_get__wrapped__ f : keeps_patched (get__wrapped__ f).
Proof. destruct f; [apply kp_raise | apply kp_ret]. Qed.

Lemma kp_plog_debug message e : keeps_patched (plog_debug message e).
Proof. intros s; reflexivity. Qed.

Create HintDb kp.
#[local] Hint Resolve kp_ret kp_getattr_module kp_getitem_builtins
  kp_setattr_module kp_setitem_builtins kp_get__wrapped__ : kp.

Ltac kp :=
  repeat first
    [ apply kp_bind; [| intros ?]
    | apply kp_if
    | solve [auto with kp] ].

(** In every state and on every runtime, the state that [_unpatch] leaves is
    unpatched, also when the restoration raised; the same holds for
    [unpatch]. *)
Lemma unpatch_leaves_unpatched rt s :
  _patched (snd (_unpatch rt s)) = false ∧ _patched (snd (unpatch rt s)) = false.
Proof.
  assert (H : _patched (snd (_unpatch rt s)) = false).
  { unfold _unpatch.
    unfold mbind at 1, Py_bind at 1, gets.
    destruct (_patched s) eqn:Hp; simpl; [| exact Hp].
    match goal with
    | |- _patched (snd ((set_patched false ≫= ?k) s)) = false =>
        assert (Hk : keeps_patched (k tt)) by kp;
        change ((set_patched false ≫= k) s) with (k tt (snd (set_patched false s)))
    end.
    rewrite Hk. reflexivity. }
  split; [exact H |].
  unfold unpatch, try_except.
  destruct (_unpatch rt s) as [[[]|e] s']; simpl in *; [exact H |].
  destruct (is_Exception e); simpl; exact H.
Qed.

(** *** Inputs at which the claims as first stated fail, and sample runs *)

(** C2, counterexample.  This layer installs its wrapper of [reload]
    (object 11); another party then wraps that with a [FunctionWrapper] of
    its own (object 12).  [unpatch()] does not skip the entry point: it
    removes the other party's wrapper and leaves this layer's wrapper
    installed. *)
Lemma unpatch_removes_wrapper_of_other_party :
  let s1 := snd (patch python_3_7 fresh_py3) in
  let s2 := snd (wrap_function_wrapper importlib "reload" (W_other 0) s1) in
  let s3 := snd (unpatch python_3_7 s2) in
  importlib_dict s1 !! "reload" = Some (FunctionWrapper 11 (Function 2) W_reload) ∧
  importlib_dict s2 !! "reload" =
    Some (FunctionWrapper 12 (FunctionWrapper 11 (Function 2) W_reload) (W_other 0)) ∧
  importlib_dict s3 !! "reload" = Some (FunctionWrapper 11 (Function 2) W_reload).
Proof. repeat split; vm_compute; reflexivity. Qed.

(** C2, sample run: the theorem applied after [patch()] on Python 3.7 and
    on Python 2.7, where each entry point holds this layer's wrapper. *)
Lemma _unpatch_restores_by_type_witness :
  (let s := snd (patch python_3_7 fresh_py3) in
   let f := FunctionWrapper 10 (Function 1) W_find_and_load_unlocked in
   let g := FunctionWrapper 11 (Function 2) W_reload in
   _patched s = true ∧
   importlib__bootstrap_dict s !! "_find_and_load_unlocked" = Some f ∧
   importlib_dict s !! "reload" = Some g ∧
   _unpatch python_3_7 s =
     (Returns tt,
      {| _patched := false;
         importlib_dict := <["reload" := Function 2]> (importlib_dict s);
         importlib__bootstrap_dict :=
           <["_find_and_load_unlocked" := Function 1]> (importlib__bootstrap_dict s);
         __builtins__ := __builtins__ s;
         next_oid := next_oid s;
         plog := plog s |})) ∧
  (let s := snd (patch python_2_7 fresh_py2) in
   let f := FunctionWrapper 10 (Function 3) W_import in
   let g := FunctionWrapper 11 (Function 4) W_reload in
   _patched s = true ∧
   __builtins__ s !! "__import__" = Some f ∧
   __builtins__ s !! "reload" = Some g ∧
   _unpatch python_2_7 s =
     (Returns tt,
      {| _patched := false;
         importlib_dict := importlib_dict s;
         importlib__bootstrap_dict := importlib__bootstrap_dict s;
         __builtins__ :=
           <["reload" := Function 4]>
             (<["__import__" := Function 3]> (__builtins__ s));
         next_oid := next_oid s;
         plog := plog s |})).
Proof.
  split; intros s f g;
    (split; [reflexivity |]); (split; [reflexivity |]); (split; [reflexivity |]).
  - apply (proj1 (_unpatch_restores_by_type python_3_7 s f g eq_refl));
      reflexivity.
  - apply (proj2 (_unpatch_restores_by_type python_2_7 s f g eq_refl));
      reflexivity.
Defined.

(** C3, sample run: two calls of [patch()] on Python 3.7 and on Python 2.7
    leave one wrapper around the original [reload]. *)
Lemma patch_is_idempotent_witness :
  (_patched fresh_py3 = false ∧
   PY3 python_3_7 = true ∧
   importlib__bootstrap_dict fresh_py3 !! "_find_and_load_unlocked" =
     Some (Function 1) ∧
   importlib_dict fresh_py3 !! "reload" = Some (Function 2) ∧
   importlib_dict (Nat.iter 2 (λ s, snd (patch python_3_7 s)) fresh_py3)
     !! "reload" = Some (FunctionWrapper 11 (Function 2) W_reload)) ∧
  (_patched fresh_py2 = false ∧
   PY3 python_2_7 = false ∧
   tuple_le [2; 7] (version_info python_2_7) = true ∧
   __builtins__ fresh_py2 !! "__import__" = Some (Function 3) ∧
   __builtins__ fresh_py2 !! "reload" = Some (Function 4) ∧
   __builtins__ (Nat.iter 2 (λ s, snd (patch python_2_7 s)) fresh_py2)
     !! "reload" = Some (FunctionWrapper 11 (Function 4) W_reload)) ∧
  (_patched (snd (patch python_3_7 fresh_py3)) = true ∧
   patch python_3_7 (snd (patch python_3_7 fresh_py3)) =
     (Returns tt, snd (patch python_3_7 fresh_py3))).
Proof.
  split; [| split].
  - repeat (split; [reflexivity |]).
    apply (proj1 (proj2 (patch_is_idempotent python_3_7 fresh_py3 1))
             (Function 1) (Function 2)); reflexivity.
  - repeat (split; [reflexivity |]).
    apply (proj2 (proj2 (patch_is_idempotent python_2_7 fresh_py2 1))
             (Function 3) (Function 4)); reflexivity.
  - split; [reflexivity |].
    apply (proj1 (patch_is_idempotent python_3_7
                    (snd (patch python_3_7 fresh_py3)) 0)).
    reflexivity.
Defined.

(** C6, sample run: [_patch] raises on Python 3.3, where [importlib.reload]
    is missing, and [_unpatch] raises on Python 3.9; [patch()] and
    [unpatch()] log and return.  [unpatch()] in a fresh process does
    nothing. *)
Lemma patch_and_unpatch_never_raise_witness :
  (let s' := snd (_patch python_3_3 fresh_py3_3) in
   _patch python_3_3 fresh_py3_3 = (Raises AttributeError, s') ∧
   patch python_3_3 fresh_py3_3 =
     plog_debug "Failed to patch module importing, import hooks will not work"
       AttributeError s') ∧
  (let s := snd (patch python_3_9 fresh_py3) in
   let s' := snd (_unpatch python_3_9 s) in
   _unpatch python_3_9 s = (Raises KeyError, s') ∧
   unpatch python_3_9 s =
     plog_debug "Failed to unpatch module importing" KeyError s') ∧
  (_patched fresh_py3 = false ∧
   unpatch python_3_7 fresh_py3 = (Returns tt, fresh_py3)).
Proof.
  split; [| split].
  - intros s'. split; [reflexivity |].
    apply (proj1 (proj2 (proj2
             (patch_and_unpatch_never_raise python_3_3 fresh_py3_3)))).
    reflexivity.
  - intros s s'. split; [reflexivity |].
    apply (proj1 (proj2 (proj2 (proj2
             (patch_and_unpatch_never_raise python_3_9 s))))).
    reflexivity.
  - split; [reflexivity |].
    apply (proj2 (proj2 (proj2 (proj2
             (patch_and_unpatch_never_raise python_3_7 fresh_py3))))).
    reflexivity.
Defined.

(** * Further properties *)

(** ** The wrappers *)

Section MoreWrapperFacts.

Context {heap : Type}.
Implicit Types (w : @world heap) (wrapped : @callable heap).
Implicit Types (hooks_call : pyval → @interp heap → outcome unit * @interp heap).
Implicit Types
  (object_bool object_in_sys_modules : pyval → @interp heap → outcome bool * @interp heap).
Implicit Types (args : list pyval) (kwargs : list (string * pyval)).

Lemma wrapped_find_and_load_unlocked_cons hooks_call wrapped instance module_name
    rest kwargs w :
  wrapped_find_and_load_unlocked hooks_call wrapped instance (module_name :: rest)
    kwargs w =
  exec_and_call_hooks hooks_call module_name wrapped (module_name :: rest) kwargs w.
Proof.
  unfold wrapped_find_and_load_unlocked, load_module_name, index.
  py_unfold. reflexivity.
Qed.

Lemma wrapped_import_cons hooks_call object_bool object_in_sys_modules wrapped
    instance module_name rest kwargs w :
  plain_name module_name = true →
  wrapped_import hooks_call object_bool object_in_sys_modules wrapped instance
    (module_name :: rest) kwargs w =
  if truthy module_name &&
     negb match module_name with
          | PyStr s => bool_decide (s ∈ sys_modules (interp_of w))
          | _ => false
          end
  then exec_and_call_hooks hooks_call module_name wrapped (module_name :: rest) kwargs w
  else call wrapped (module_name :: rest) kwargs w.
Proof.
  intros Hplain.
  rewrite wrapped_import_guard, first_load_guard_plain by exact Hplain.
  destruct (truthy module_name && _); reflexivity.
Qed.

Lemma load_wrappers_nil hooks_call object_bool object_in_sys_modules wrapped
    instance kwargs w :
  wrapped_find_and_load_unlocked hooks_call wrapped instance [] kwargs w =
    call wrapped [] kwargs
      {| interp_of := interp_of w;
         log := log w ++
                [LogRecord DEBUG
                   "Failed to determine module name when importing module: %r"
                   [PyTuple []] IndexError];
         trace := trace w |} ∧
  wrapped_import hooks_call object_bool object_in_sys_modules wrapped instance []
    kwargs w =
    call wrapped [] kwargs
      {| interp_of := interp_of w;
         log := log w ++
                [LogRecord DEBUG
                   "Failed to determine module name when importing module: %r"
                   [PyTuple []] IndexError];
         trace := trace w |}.
Proof.
  unfold wrapped_find_and_load_unlocked, wrapped_import, load_module_name,
    index, call, log_debug.
  py_unfold. simpl.
  destruct (wrapped [] kwargs (interp_of w)) as [[v|e] i]; split; reflexivity.
Qed.

(** X1.  Given a first positional argument, [wrapped_find_and_load_unlocked]
    dispatches with that argument after the original call, whatever the
    argument is and whatever [sys.modules] holds: unlike [wrapped_import] it
    tests neither the truth value of the name nor the module cache. *)
Theorem wrapped_find_and_load_unlocked_always_dispatches hooks_call wrapped instance
    module_name rest kwargs w :
  let args := module_name :: rest in
  let '(r, i1) := wrapped args kwargs (interp_of w) in
  let '(d, i2) := hooks_call module_name i1 in
  wrapped_find_and_load_unlocked hooks_call wrapped instance args kwargs w =
    (match d with
     | Returns _ => r
     | Raises e => if is_Exception e then r else Raises e
     end,
     {| interp_of := i2;
        log := log w ++
               match d with
               | Returns _ => []
               | Raises e =>
                   if is_Exception e
                   then [LogRecord DEBUG "Failed to call hooks for module %r"
                           [module_name] e]
                   else []
               end;
        trace := trace w ++ [Called args kwargs r; Dispatched module_name d] |}).
Proof.
  intros args. subst args.
  rewrite wrapped_find_and_load_unlocked_cons, exec_and_call_hooks_unfold.
  destruct (wrapped (module_name :: rest) kwargs (interp_of w)) as [r i1].
  destruct (hooks_call module_name i1) as [d i2]. reflexivity.
Qed.

(** X2.  [wrapped_find_and_load_unlocked], for every argument tuple, and
    [wrapped_import], for every argument tuple that is empty or starts with
    [None], a string or an integer, call the original entry point exactly
    once, with the arguments and keyword arguments they received and in the
    interpreter state they were entered in; the only other call they make is
    at most one dispatch, after that call. *)
Theorem load_wrappers_call_original_exactly_once hooks_call object_bool
    object_in_sys_modules wrapped instance args kwargs w :
  let r := fst (wrapped args kwargs (interp_of w)) in
  (∃ dispatched,
     trace (snd (wrapped_find_and_load_unlocked hooks_call wrapped instance args
                   kwargs w)) =
       trace w ++ Called args kwargs r :: dispatched ∧
     (dispatched = [] ∨ ∃ n d, dispatched = [Dispatched n d])) ∧
  ((∀ module_name, head args = Some module_name → plain_name module_name = true) →
   ∃ dispatched,
     trace (snd (wrapped_import hooks_call object_bool object_in_sys_modules
                   wrapped instance args kwargs w)) =
       trace w ++ Called args kwargs r :: dispatched ∧
     (dispatched = [] ∨ ∃ n d, dispatched = [Dispatched n d])).
Proof.
  intros r. subst r.
  destruct args as [|module_name rest].
  - destruct (load_wrappers_nil hooks_call object_bool object_in_sys_modules
                wrapped instance kwargs w) as [-> ->].
    unfold call; simpl.
    destruct (wrapped [] kwargs (interp_of w)) as [r i1]; simpl.
    split; [| intros _]; exists []; auto.
  - split.
    + rewrite wrapped_find_and_load_unlocked_cons, exec_and_call_hooks_unfold.
      destruct (wrapped (module_name :: rest) kwargs (interp_of w)) as [r i1].
      destruct (hooks_call module_name i1) as [d i2]; simpl.
      exists [Dispatched module_name d]; split; eauto.
    + intros Hplain. rewrite wrapped_import_cons by (apply Hplain; reflexivity).
      destruct (truthy module_name && _);
        rewrite ?exec_and_call_hooks_unfold; unfold call;
        destruct (wrapped (module_name :: rest) kwargs (interp_of w)) as [r i1];
        destruct (hooks_call module_name i1) as [d i2]; simpl.
      * exists [Dispatched module_name d]; split; eauto.
      * exists []; split; eauto.
Qed.

(** X3.  When [hooks.call] raises nothing but exceptions derived from
    [Exception], the load wrappers are transparent, returning what the
    original entry point returns and raising what it raises:
    [wrapped_find_and_load_unlocked] for every argument tuple, and
    [wrapped_import] for every argument tuple that is empty or starts with
    [None], a string or an integer. *)
Theorem load_wrappers_are_transparent hooks_call object_bool object_in_sys_modules
    wrapped instance args kwargs w :
  (∀ n i e, fst (hooks_call n i) = Raises e → is_Exception e = true) →
  fst (wrapped_find_and_load_unlocked hooks_call wrapped instance args kwargs w) =
    fst (wrapped args kwargs (interp_of w)) ∧
  ((∀ module_name, head args = Some module_name → plain_name module_name = true) →
   fst (wrapped_import hooks_call object_bool object_in_sys_modules wrapped
          instance args kwargs w) =
     fst (wrapped args kwargs (interp_of w))).
Proof.
  intros Hhooks.
  destruct args as [|module_name rest].
  - destruct (load_wrappers_nil hooks_call object_bool object_in_sys_modules
                wrapped instance kwargs w) as [-> ->].
    unfold call; simpl.
    destruct (wrapped [] kwargs (interp_of w)) as [r i1]; simpl. auto.
  - assert (Hexec :
      fst (exec_and_call_hooks hooks_call module_name wrapped (module_name :: rest)
             kwargs w) =
      fst (wrapped (module_name :: rest) kwargs (interp_of w))).
    { rewrite exec_and_call_hooks_unfold.
      destruct (wrapped (module_name :: rest) kwargs (interp_of w)) as [r i1].
      specialize (Hhooks module_name i1).
      destruct (hooks_call module_name i1) as [[[]|e] i2]; simpl in *;
        [reflexivity |].
      rewrite (Hhooks e eq_refl). reflexivity. }
    split.
    + rewrite wrapped_find_and_load_unlocked_cons. exact Hexec.
    + intros Hplain. rewrite wrapped_import_cons by (apply Hplain; reflexivity).
      destruct (truthy module_name && _); [exact Hexec |].
      unfold call.
      destruct (wrapped (module_name :: rest) kwargs (interp_of w)); reflexivity.
Qed.

(** X4.  A first import and a repeated import.  The name [s] is not empty
    and not cached when the first [wrapped_import] starts, and is cached when
    the second one starts (the original import and the hooks have put and
    left it in [sys.modules]).  Over the two imports the original is called
    twice and the hooks are dispatched once, between the two calls. *)
Theorem import_twice_dispatches_once hooks_call object_bool object_in_sys_modules
    wrapped instance (s : string) rest kwargs w :
  let args := PyStr s :: rest in
  let w1 :=
    snd (wrapped_import hooks_call object_bool object_in_sys_modules wrapped
           instance args kwargs w) in
  let w2 :=
    snd (wrapped_import hooks_call object_bool object_in_sys_modules wrapped
           instance args kwargs w1) in
  let r1 := fst (wrapped args kwargs (interp_of w)) in
  let r2 := fst (wrapped args kwargs (interp_of w1)) in
  s ≠ "" →
  s ∉ sys_modules (interp_of w) →
  s ∈ sys_modules (interp_of w1) →
  ∃ d,
    trace w2 =
      trace w ++ [Called args kwargs r1; Dispatched (PyStr s) d;
                  Called args kwargs r2].
Proof.
  intros args w1 w2 r1 r2 Hs Hfresh Hcached.
  assert (Htruthy : truthy (PyStr s) = true).
  { simpl. apply negb_true_iff, String.eqb_neq, Hs. }
  assert (Hw1 : ∃ d,
    trace w1 = trace w ++ [Called args kwargs r1; Dispatched (PyStr s) d]).
  { subst w1 r1. unfold args. rewrite wrapped_import_cons, Htruthy by reflexivity.
    rewrite bool_decide_eq_false_2 by exact Hfresh. simpl.
    rewrite exec_and_call_hooks_unfold.
    destruct (wrapped (PyStr s :: rest) kwargs (interp_of w)) as [r1 i1].
    destruct (hooks_call (PyStr s) i1) as [d i2]. simpl. eauto. }
  destruct Hw1 as (d & Hw1).
  subst w2 r2. unfold args at 1.
  rewrite wrapped_import_cons, Htruthy by reflexivity.
  rewrite bool_decide_eq_true_2 by exact Hcached. simpl.
  unfold call. fold args.
  destruct (wrapped args kwargs (interp_of w1)) as [r2 i3]. simpl.
  exists d. rewrite Hw1, <- app_assoc. reflexivity.
Qed.

Lemma reload_module_name_eq rt args w :
  reload_module_name rt args w =
    match
      match args with
      | [] => Raises IndexError
      | m :: _ =>
          if PY3 rt then
            match attribute m "__spec__" with
            | Returns spec =>
                match attribute spec "name" with
                | Raises AttributeError => attribute m "__name__"
                | found => found
                end
            | Raises AttributeError => attribute m "__name__"
            | Raises e => Raises e
            end
          else attribute m "__name__"
      end
    with
    | Returns module_name => (Returns module_name, w)
    | Raises e =>
        if is_Exception e then
          (Returns PyNone,
           {| interp_of := interp_of w;
              log := log w ++
                     [LogRecord DEBUG
                        "Failed to determine module name when calling `reload`: %r"
                        [PyTuple args] e];
              trace := trace w |})
        else (Raises e, w)
    end.
Proof.
  unfold reload_module_name, index, getattr, log_debug.
  py_unfold.
  destruct args as [|m rest]; simpl; destruct (PY3 rt); simpl; try reflexivity;
    repeat match goal with
           | |- context [match attribute ?a ?b with _ => _ end] =>
               destruct (attribute a b) as [?|[]]; simpl
           end;
    reflexivity.
Qed.

(** The name under which a reload of [m] is announced when the lookup
    succeeds: the spec name under Python 3, [__name__] when [__spec__] is
    [None] (as for [__main__]), and [__name__] under Python 2. *)
Lemma reload_module_name_found rt m rest n w :
  (PY3 rt = true ∧
   ∃ spec, attribute m "__spec__" = Returns spec ∧
           attribute spec "name" = Returns n) ∨
  (PY3 rt = true ∧ attribute m "__spec__" = Returns PyNone ∧
   attribute m "__name__" = Returns n) ∨
  (PY3 rt = false ∧ attribute m "__name__" = Returns n) →
  reload_module_name rt (m :: rest) w = (Returns n, w).
Proof.
  intros H. rewrite reload_module_name_eq.
  destruct H as [(-> & spec & -> & ->) | [(-> & -> & ->) | (-> & ->)]];
    reflexivity.
Qed.

(** X5.  Every reload announces the module again.  When the name of the
    module object [m] is found as [n], two reloads in a row call the original
    twice and dispatch for [n] twice, each dispatch right after its call;
    [sys.modules] is not consulted. *)
Theorem reload_twice_dispatches_twice hooks_call rt wrapped instance m rest kwargs
    n w :
  let args := m :: rest in
  let w1 := snd (wrapped_reload hooks_call rt wrapped instance args kwargs w) in
  let w2 := snd (wrapped_reload hooks_call rt wrapped instance args kwargs w1) in
  let r1 := fst (wrapped args kwargs (interp_of w)) in
  let r2 := fst (wrapped args kwargs (interp_of w1)) in
  (PY3 rt = true ∧
   ∃ spec, attribute m "__spec__" = Returns spec ∧
           attribute spec "name" = Returns n) ∨
  (PY3 rt = true ∧ attribute m "__spec__" = Returns PyNone ∧
   attribute m "__name__" = Returns n) ∨
  (PY3 rt = false ∧ attribute m "__name__" = Returns n) →
  ∃ d1 d2,
    trace w2 =
      trace w ++ [Called args kwargs r1; Dispatched n d1;
                  Called args kwargs r2; Dispatched n d2].
Proof.
  intros args w1 w2 r1 r2 Hname.
  assert (Hstep : ∀ w0,
    ∃ d, trace (snd (wrapped_reload hooks_call rt wrapped instance args kwargs w0)) =
         trace w0 ++ [Called args kwargs (fst (wrapped args kwargs (interp_of w0)));
                      Dispatched n d]).
  { intros w0. unfold wrapped_reload. unfold mbind, Py_bind.
    unfold args. rewrite (reload_module_name_found rt m rest n w0 Hname).
    rewrite exec_and_call_hooks_unfold. fold args.
    destruct (wrapped args kwargs (interp_of w0)) as [r i1].
    destruct (hooks_call n i1) as [d i2]. simpl. eauto. }
  destruct (Hstep w) as (d1 & H1). destruct (Hstep w1) as (d2 & H2).
  exists d1, d2. subst w2 r1 r2. fold w1 in H1. rewrite H2, H1, <- app_assoc.
  reflexivity.
Qed.

End MoreWrapperFacts.

(** X3, sample run: a hook fails with [ValueError]; the value of the original
    call comes back from both wrappers. *)
Lemma load_wrappers_are_transparent_witness :
  let wrapped : @callable unit := fun _ _ i => (Returns (PyInt 1), i) in
  let hooks_call : pyval → @interp unit → outcome unit * @interp unit :=
    fun _ i => (Raises ValueError, i) in
  let w := World (Interp ∅ tt) [] [] in
  (∀ n i e, fst (hooks_call n i) = Raises e → is_Exception e = true) ∧
  fst (wrapped_find_and_load_unlocked hooks_call wrapped PyNone [PyStr "alpha"] [] w) =
    Returns (PyInt 1) ∧
  plain_name (PyStr "alpha") = true ∧
  fst (wrapped_import hooks_call object_bool_default object_in_sys_modules_default
         wrapped PyNone [PyStr "alpha"] [] w) =
    Returns (PyInt 1).
Proof.
  intros wrapped hooks_call w.
  assert (H : ∀ n i e, fst (hooks_call n i) = Raises e → is_Exception e = true).
  { intros n i e He. inversion He. reflexivity. }
  assert (Hplain : ∀ module_name,
    head [PyStr "alpha"] = Some module_name → plain_name module_name = true).
  { intros module_name Hhead. inversion Hhead. reflexivity. }
  split; [exact H |].
  pose proof (load_wrappers_are_transparent hooks_call object_bool_default
                object_in_sys_modules_default wrapped PyNone [PyStr "alpha"] [] w H)
    as [Hfind Himport].
  split; [exact Hfind |]. split; [reflexivity |]. exact (Himport Hplain).
Defined.

(** X2, sample run: an import of the uncached name [alpha]. *)
Lemma load_wrappers_call_original_exactly_once_witness :
  let wrapped : @callable unit := fun _ _ i => (Returns (PyInt 1), i) in
  let hooks_call : pyval → @interp unit → outcome unit * @interp unit :=
    fun _ i => (Returns tt, i) in
  let w := World (Interp ∅ tt) [] [] in
  plain_name (PyStr "alpha") = true ∧
  ∃ dispatched,
    trace (snd (wrapped_import hooks_call object_bool_default
                  object_in_sys_modules_default wrapped PyNone [PyStr "alpha"] []
                  w)) =
      Called [PyStr "alpha"] [] (Returns (PyInt 1)) :: dispatched ∧
    (dispatched = [] ∨ ∃ n d, dispatched = [Dispatched n d]).
Proof.
  intros wrapped hooks_call w.
  assert (Hplain : ∀ module_name,
    head [PyStr "alpha"] = Some module_name → plain_name module_name = true).
  { intros module_name Hhead. inversion Hhead. reflexivity. }
  split; [reflexivity |].
  exact (proj2 (load_wrappers_call_original_exactly_once hooks_call
                  object_bool_default object_in_sys_modules_default wrapped PyNone
                  [PyStr "alpha"] [] w) Hplain).
Defined.

(** X4, sample run: the original import puts the name into [sys.modules]. *)
Lemma import_twice_dispatches_once_witness :
  let wrapped : @callable unit := fun args _ i =>
    match args with
    | PyStr s :: _ => (Returns PyNone, Interp ({[ s ]} ∪ sys_modules i) (user_heap i))
    | _ => (Raises TypeError, i)
    end in
  let hooks_call : pyval → @interp unit → outcome unit * @interp unit :=
    fun _ i => (Returns tt, i) in
  let w := World (Interp ∅ tt) [] [] in
  let args := [PyStr "alpha"] in
  let w1 :=
    snd (wrapped_import hooks_call object_bool_default
           object_in_sys_modules_default wrapped PyNone args [] w) in
  let w2 :=
    snd (wrapped_import hooks_call object_bool_default
           object_in_sys_modules_default wrapped PyNone args [] w1) in
  ("alpha" ≠ "") ∧
  ("alpha" ∉ sys_modules (interp_of w)) ∧
  ("alpha" ∈ sys_modules (interp_of w1)) ∧
  ∃ d, trace w2 =
         [Called args [] (Returns PyNone); Dispatched (PyStr "alpha") d;
          Called args [] (Returns PyNone)].
Proof.
  intros wrapped hooks_call w args w1 w2.
  assert (H1 : "alpha" ≠ "") by discriminate.
  assert (H2 : "alpha" ∉ sys_modules (interp_of w)) by (simpl; set_solver).
  assert (H3 : "alpha" ∈ sys_modules (interp_of w1)) by (simpl; set_solver).
  split; [exact H1 |]. split; [exact H2 |]. split; [exact H3 |].
  exact (import_twice_dispatches_once hooks_call object_bool_default
           object_in_sys_modules_default wrapped PyNone "alpha" [] [] w
           H1 H2 H3).
Defined.

(** X5, sample run: a module object of Python 3 whose spec name is
    [alpha]. *)
Lemma reload_twice_dispatches_twice_witness :
  let wrapped : @callable unit := fun _ _ i => (Returns PyNone, i) in
  let hooks_call : pyval → @interp unit → outcome unit * @interp unit :=
    fun _ i => (Returns tt, i) in
  let spec := PyObject {[ "name" := Holds (PyStr "alpha") ]} in
  let m := PyObject {[ "__spec__" := Holds spec; "__name__" := Holds (PyStr "alpha") ]} in
  let w := World (Interp {[ "alpha" ]} tt) [] [] in
  let w1 := snd (wrapped_reload hooks_call python_3_7 wrapped PyNone [m] [] w) in
  let w2 := snd (wrapped_reload hooks_call python_3_7 wrapped PyNone [m] [] w1) in
  attribute m "__spec__" = Returns spec ∧
  attribute spec "name" = Returns (PyStr "alpha") ∧
  ∃ d1 d2,
    trace w2 =
      [Called [m] [] (Returns PyNone); Dispatched (PyStr "alpha") d1;
       Called [m] [] (Returns PyNone); Dispatched (PyStr "alpha") d2].
Proof.
  intros wrapped hooks_call spec m w w1 w2.
  assert (H1 : attribute m "__spec__" = Returns spec) by (vm_compute; reflexivity).
  assert (H2 : attribute spec "name" = Returns (PyStr "alpha"))
    by (vm_compute; reflexivity).
  split; [exact H1 |]. split; [exact H2 |].
  exact (reload_twice_dispatches_twice hooks_call python_3_7 wrapped PyNone m [] []
           (PyStr "alpha") w
           (or_introl (conj eq_refl (ex_intro _ spec (conj H1 H2))))).
Defined.

(** ** The patch controller *)

(** X6.  The version tests of [_unpatch], for a three-part version.  The
    test for the [importlib] pair holds exactly for 3.4 up to 3.7: a version
    3.8.x is greater than [(3, 8)] and fails it.  The test for the
    [__builtins__] pair holds exactly from 2.7 on, every Python 3 included. *)
Theorem _unpatch_version_tests (major minor micro : Z) :
  (tuple_le [3; 4] [major; minor; micro] && tuple_le [major; minor; micro] [3; 8]
     = true ↔ major = 3 ∧ 4 ≤ minor ≤ 7) ∧
  (tuple_le [2; 7] [major; minor; micro] = true ↔
     2 < major ∨ (major = 2 ∧ 7 ≤ minor)).
Proof.
  unfold tuple_le.
  destruct (Z.eqb_spec 3 major), (Z.eqb_spec 4 minor), (Z.eqb_spec major 3),
    (Z.eqb_spec minor 8), (Z.eqb_spec 2 major), (Z.eqb_spec 7 minor),
    (Z.ltb_spec 3 major), (Z.ltb_spec 4 minor), (Z.ltb_spec major 3),
    (Z.ltb_spec minor 8), (Z.ltb_spec 2 major), (Z.ltb_spec 7 minor);
    simpl; split; split; intros; try discriminate; try lia; reflexivity.
Qed.

Lemma tuple_le_3_4_2_7 (v : list Z) :
  tuple_le [3; 4] v = true → tuple_le [2; 7] v = true.
Proof.
  destruct v as [|x v]; unfold tuple_le; [discriminate |].
  destruct (Z.eqb_spec 3 x), (Z.eqb_spec 2 x), (Z.ltb_spec 3 x), (Z.ltb_spec 2 x);
    intros; try lia; try discriminate; reflexivity.
Qed.

Lemma unpatch_of__unpatch_returns rt s s' :
  _unpatch rt s = (Returns tt, s') → unpatch rt s = (Returns tt, s').
Proof. intros H. unfold unpatch, try_except. rewrite H. reflexivity. Qed.

Lemma patch_unpatch_state_modern rt s f g :
  _patched s = false → PY3 rt = true →
  tuple_le [3; 4] (version_info rt) && tuple_le (version_info rt) [3; 8] = true →
  importlib__bootstrap_dict s !! "_find_and_load_unlocked" = Some f →
  importlib_dict s !! "reload" = Some g →
  unpatch rt (snd (patch rt s)) =
    (Returns tt,
     {| _patched := false;
        importlib_dict := importlib_dict s;
        importlib__bootstrap_dict := importlib__bootstrap_dict s;
        __builtins__ := __builtins__ s;
        next_oid := S (S (next_oid s));
        plog := plog s |}).
Proof.
  intros Hp H3 Hv Hf Hg.
  rewrite (patch_modern rt s f g Hp H3 Hf Hg); simpl.
  erewrite unpatch_of__unpatch_returns; [reflexivity |].
  erewrite _unpatch_modern; simpl;
    [| reflexivity | exact Hv | apply lookup_insert_eq | apply lookup_insert_eq ].
  simpl. rewrite !insert_insert_eq.
  rewrite (insert_id _ _ _ Hf), (insert_id _ _ _ Hg). reflexivity.
Qed.

Lemma patch_unpatch_state_legacy rt s f g :
  _patched s = false → PY3 rt = false →
  tuple_le [3; 4] (version_info rt) && tuple_le (version_info rt) [3; 8] = false →
  tuple_le [2; 7] (version_info rt) = true →
  __builtins__ s !! "__import__" = Some f →
  __builtins__ s !! "reload" = Some g →
  unpatch rt (snd (patch rt s)) =
    (Returns tt,
     {| _patched := false;
        importlib_dict := importlib_dict s;
        importlib__bootstrap_dict := importlib__bootstrap_dict s;
        __builtins__ := __builtins__ s;
        next_oid := S (S (next_oid s));
        plog := plog s |}).
Proof.
  intros Hp H3 Hv H27 Hf Hg.
  rewrite (patch_legacy rt s f g Hp H3 H27 Hf Hg); simpl.
  erewrite unpatch_of__unpatch_returns; [reflexivity |].
  erewrite _unpatch_legacy; simpl;
    [| reflexivity | exact Hv | exact H27
     | rewrite lookup_insert_ne by discriminate; apply lookup_insert_eq
     | apply lookup_insert_eq ].
  simpl. f_equal. f_equal.
  apply map_eq; intros k.
  destruct (decide (k = "reload")) as [->|Hr].
  { rewrite lookup_insert_eq. symmetry. exact Hg. }
  rewrite lookup_insert_ne by congruence.
  destruct (decide (k = "__import__")) as [->|Hi].
  { rewrite lookup_insert_eq. symmetry. exact Hf. }
  rewrite !lookup_insert_ne by congruence. reflexivity.
Qed.

(** X7.  Round trip of the life cycle.  On a version from 3.4 up to 3.7 with
    [PY3] set, and on a version from 2.7 with [PY3] unset, [patch()] followed
    by [unpatch()] in an unpatched process whose entry points exist returns
    without error, logs nothing, and leaves the three namespaces exactly as
    they were, with the original objects at the entry points. *)
Theorem patch_then_unpatch_round_trip (rt : runtime) (s : pstate) (f g : pyfunc) :
  _patched s = false →
  (PY3 rt = true →
   tuple_le [3; 4] (version_info rt) && tuple_le (version_info rt) [3; 8] = true →
   importlib__bootstrap_dict s !! "_find_and_load_unlocked" = Some f →
   importlib_dict s !! "reload" = Some g →
   unpatch rt (snd (patch rt s)) =
     (Returns tt,
      {| _patched := false;
         importlib_dict := importlib_dict s;
         importlib__bootstrap_dict := importlib__bootstrap_dict s;
         __builtins__ := __builtins__ s;
         next_oid := S (S (next_oid s));
         plog := plog s |})) ∧
  (PY3 rt = false →
   tuple_le [3; 4] (version_info rt) && tuple_le (version_info rt) [3; 8] = false →
   tuple_le [2; 7] (version_info rt) = true →
   __builtins__ s !! "__import__" = Some f →
   __builtins__ s !! "reload" = Some g →
   unpatch rt (snd (patch rt s)) =
     (Returns tt,
      {| _patched := false;
         importlib_dict := importlib_dict s;
         importlib__bootstrap_dict := importlib__bootstrap_dict s;
         __builtins__ := __builtins__ s;
         next_oid := S (S (next_oid s));
         plog := plog s |})).
Proof.
  intros Hp. split.
  - apply patch_unpatch_state_modern, Hp.
  - apply patch_unpatch_state_legacy, Hp.
Qed.

(** X8.  Installing again after a clean uninstall.  On a version from 3.4
    up to 3.7, [patch()], [unpatch()], [patch()] leaves each entry point
    holding one new wrapper around the original object, not a wrapper around
    an old wrapper. *)
Theorem patch_unpatch_patch_single_layer (rt : runtime) (s : pstate) (f g : pyfunc) :
  _patched s = false → PY3 rt = true →
  tuple_le [3; 4] (version_info rt) && tuple_le (version_info rt) [3; 8] = true →
  importlib__bootstrap_dict s !! "_find_and_load_unlocked" = Some f →
  importlib_dict s !! "reload" = Some g →
  let s' := snd (patch rt (snd (unpatch rt (snd (patch rt s))))) in
  _patched s' = true ∧
  importlib__bootstrap_dict s' !! "_find_and_load_unlocked" =
    Some (FunctionWrapper (S (S (next_oid s))) f W_find_and_load_unlocked) ∧
  importlib_dict s' !! "reload" =
    Some (FunctionWrapper (S (S (S (next_oid s)))) g W_reload).
Proof.
  intros Hp H3 Hv Hf Hg s'. subst s'.
  rewrite (patch_unpatch_state_modern rt s f g Hp H3 Hv Hf Hg); simpl.
  erewrite patch_modern; simpl; [| reflexivity | exact H3 | exact Hf | exact Hg].
  repeat split; apply lookup_insert_eq.
Qed.

(** X9.  [unpatch()] always leaves the process unpatched, whether the
    restoration succeeded or raised, and a second [unpatch()] right after it
    does nothing. *)
Theorem unpatch_twice_is_unpatch_once (rt : runtime) (s : pstate) :
  _patched (snd (unpatch rt s)) = false ∧
  unpatch rt (snd (unpatch rt s)) = (Returns tt, snd (unpatch rt s)).
Proof.
  pose proof (proj2 (unpatch_leaves_unpatched rt s)) as H.
  split; [exact H |].
  unfold unpatch at 1, try_except, _unpatch, gets.
  unfold mbind, Py_bind. rewrite H. reflexivity.
Qed.

(** X10.  [patch()] is not atomic.  Under Python 3, when
    [_find_and_load_unlocked] exists and [importlib.reload] does not, the
    first entry point is wrapped, the failure is logged, and the process
    stays unpatched; a second [patch()] then wraps the wrapper. *)
Theorem patch_failure_keeps_first_wrapper (rt : runtime) (s : pstate) (f : pyfunc) :
  _patched s = false → PY3 rt = true →
  importlib__bootstrap_dict s !! "_find_and_load_unlocked" = Some f →
  importlib_dict s !! "reload" = None →
  patch rt s =
    (Returns tt,
     {| _patched := false;
        importlib_dict := importlib_dict s;
        importlib__bootstrap_dict :=
          <["_find_and_load_unlocked" :=
              FunctionWrapper (next_oid s) f W_find_and_load_unlocked]>
            (importlib__bootstrap_dict s);
        __builtins__ := __builtins__ s;
        next_oid := S (next_oid s);
        plog := plog s ++
                [LogRecord DEBUG
                   "Failed to patch module importing, import hooks will not work"
                   [] AttributeError] |}) ∧
  importlib__bootstrap_dict (snd (patch rt (snd (patch rt s))))
    !! "_find_and_load_unlocked" =
    Some (FunctionWrapper (S (next_oid s))
            (FunctionWrapper (next_oid s) f W_find_and_load_unlocked)
            W_find_and_load_unlocked).
Proof.
  intros Hp H3 Hf Hg.
  assert (Hstep : ∀ s0 f0,
    _patched s0 = false →
    importlib__bootstrap_dict s0 !! "_find_and_load_unlocked" = Some f0 →
    importlib_dict s0 !! "reload" = None →
    patch rt s0 =
      (Returns tt,
       {| _patched := false;
          importlib_dict := importlib_dict s0;
          importlib__bootstrap_dict :=
            <["_find_and_load_unlocked" :=
                FunctionWrapper (next_oid s0) f0 W_find_and_load_unlocked]>
              (importlib__bootstrap_dict s0);
          __builtins__ := __builtins__ s0;
          next_oid := S (next_oid s0);
          plog := plog s0 ++
                  [LogRecord DEBUG
                     "Failed to patch module importing, import hooks will not work"
                     [] AttributeError] |})).
  { intros s0 f0 Hp0 Hf0 Hg0. unfold patch, _patch. py_run.
    rewrite Hp0, H3, Hf0; simpl. rewrite Hg0; simpl. rewrite Hp0. reflexivity. }
  rewrite (Hstep s f Hp Hf Hg). split; [reflexivity |]. simpl.
  erewrite Hstep; simpl; [| reflexivity | apply lookup_insert_eq | exact Hg].
  apply lookup_insert_eq.
Qed.

(** X11.  A runtime older than 2.7 (with [PY3] unset).  [patch()] wraps
    nothing and only sets the flag, and [unpatch()] only clears it: the
    round trip gives back the very state it started from. *)
Theorem patch_on_runtime_before_2_7 (rt : runtime) (s : pstate) :
  _patched s = false → PY3 rt = false →
  tuple_le [2; 7] (version_info rt) = false →
  patch rt s = set_patched true s ∧
  unpatch rt (snd (patch rt s)) = (Returns tt, s).
Proof.
  intros Hp H3 H27.
  assert (Hrange :
    tuple_le [3; 4] (version_info rt) && tuple_le (version_info rt) [3; 8] = false).
  { destruct (tuple_le [3; 4] (version_info rt)) eqn:H34; [| reflexivity].
    apply tuple_le_3_4_2_7 in H34. congruence. }
  assert (Hpatch : patch rt s = set_patched true s).
  { unfold patch, _patch. py_run. rewrite Hp, H3, H27; simpl. reflexivity. }
  split; [exact Hpatch |].
  rewrite Hpatch. unfold unpatch, _unpatch. py_run.
  rewrite Hrange, H27; simpl.
  destruct s; simpl in *. rewrite Hp. reflexivity.
Qed.

(** X12.  Python 3.8 and later.  With [PY3] set, a version [(3, minor, micro)]
    with [minor] at least 8, and no [reload] in [__builtins__] (as in every
    Python 3), [unpatch()] after [patch()] leaves both [importlib] entry
    points wrapped, clears the flag, and logs the [KeyError]; before it
    fails it has unwrapped [__builtins__["__import__"]] one layer when that
    was a [FunctionWrapper] of some other party. *)
Theorem unpatch_after_patch_from_python_3_8 (rt : runtime) (s : pstate)
    (minor micro : Z) (f g h : pyfunc) :
  _patched s = false → PY3 rt = true →
  version_info rt = [3; minor; micro] → 8 ≤ minor →
  importlib__bootstrap_dict s !! "_find_and_load_unlocked" = Some f →
  importlib_dict s !! "reload" = Some g →
  __builtins__ s !! "__import__" = Some h →
  __builtins__ s !! "reload" = None →
  unpatch rt (snd (patch rt s)) =
    (Returns tt,
     {| _patched := false;
        importlib_dict :=
          <["reload" := FunctionWrapper (S (next_oid s)) g W_reload]>
            (importlib_dict s);
        importlib__bootstrap_dict :=
          <["_find_and_load_unlocked" :=
              FunctionWrapper (next_oid s) f W_find_and_load_unlocked]>
            (importlib__bootstrap_dict s);
        __builtins__ := <["__import__" := unwrap_one_layer h]> (__builtins__ s);
        next_oid := S (S (next_oid s));
        plog := plog s ++
                [LogRecord DEBUG "Failed to unpatch module importing" []
                   KeyError] |}).
Proof.
  intros Hp H3 Hv Hminor Hf Hg Hh Hr.
  rewrite (patch_modern rt s f g Hp H3 Hf Hg); simpl.
  destruct (_unpatch_version_tests 3 minor micro) as [Hrange H27].
  assert (Hrange' :
    tuple_le [3; 4] (version_info rt) && tuple_le (version_info rt) [3; 8] = false).
  { rewrite Hv. apply not_true_is_false. rewrite Hrange. lia. }
  assert (H27' : tuple_le [2; 7] (version_info rt) = true).
  { rewrite Hv. apply H27. lia. }
  unfold unpatch, _unpatch. py_run.
  rewrite Hrange', H27'; simpl. rewrite Hh; simpl.
  destruct h as [o|o h' wh]; simpl.
  - rewrite Hr; simpl. rewrite (insert_id _ _ _ Hh). reflexivity.
  - rewrite Hh; simpl. rewrite lookup_insert_ne by discriminate.
    rewrite Hr; simpl. reflexivity.
Qed.

(** X13.  The two variants are never mixed by [patch()]: with [PY3] set it
    leaves [__builtins__] as it is, and with [PY3] unset it leaves the
    attributes of [importlib] and [importlib._bootstrap] as they are, from
    every state and whether or not the wrapping succeeds. *)
Theorem patch_keeps_to_its_variant (rt : runtime) (s : pstate) :
  (PY3 rt = true → __builtins__ (snd (patch rt s)) = __builtins__ s) ∧
  (PY3 rt = false →
   importlib_dict (snd (patch rt s)) = importlib_dict s ∧
   importlib__bootstrap_dict (snd (patch rt s)) = importlib__bootstrap_dict s).
Proof.
  split; intros H3; unfold patch, _patch; py_run; rewrite H3;
    destruct (_patched s); simpl; try reflexivity; try (split; reflexivity).
  - destruct (importlib__bootstrap_dict s !! "_find_and_load_unlocked"); simpl;
      [| reflexivity].
    destruct (importlib_dict s !! "reload"); reflexivity.
  - destruct (tuple_le [2; 7] (version_info rt)); simpl; [| split; reflexivity].
    destruct (__builtins__ s !! "__import__"); simpl; [| split; reflexivity].
    destruct (<["__import__" := _]> (__builtins__ s) !! "reload"); simpl;
      split; reflexivity.
Qed.

(** *** Nothing but the entry points is touched *)

Lemma soe_same_dicts s s' :
  importlib_dict s' = importlib_dict s →
  importlib__bootstrap_dict s' = importlib__bootstrap_dict s →
  __builtins__ s' = __builtins__ s →
  same_outside_entry_points s s'.
Proof.
  intros H1 H2 H3. unfold same_outside_entry_points.
  rewrite H1, H2, H3. repeat split; auto.
Qed.

Lemma soe_trans s1 s2 s3 :
  same_outside_entry_points s1 s2 → same_outside_entry_points s2 s3 →
  same_outside_entry_points s1 s3.
Proof.
  intros (A1 & A2 & A3 & A4 & A5 & A6) (B1 & B2 & B3 & B4 & B5 & B6).
  repeat split; intros k.
  - intros H. rewrite B1, A1 by exact H. reflexivity.
  - intros H. rewrite B2, A2 by exact H. reflexivity.
  - intros H H'. rewrite B3, A3 by assumption. reflexivity.
  - intros H. apply B4, A4, H.
  - intros H. apply B5, A5, H.
  - intros H. apply B6, A6, H.
Qed.

Lemma is_Some_insert_keeps (m : gmap string pyfunc) name f k :
  is_Some (m !! k) → is_Some (<[name := f]> m !! k).
Proof.
  intros H. destruct (decide (name = k)) as [->|Hne].
  - rewrite lookup_insert_eq. eauto.
  - rewrite lookup_insert_ne by exact Hne. exact H.
Qed.

Lemma swe_ret {A} (a : A) : stays_within_entry_points (mret a).
Proof. intros s. apply soe_same_dicts; reflexivity. Qed.

Lemma swe_raise {A} (e : exn) : stays_within_entry_points (raise e : Py pstate A).
Proof. intros s. apply soe_same_dicts; reflexivity. Qed.

Lemma swe_gets {A} (f : pstate → A) : stays_within_entry_points (gets f).
Proof. intros s. apply soe_same_dicts; reflexivity. Qed.

Lemma swe_bind {A B} (m : Py pstate A) (k : A → Py pstate B) :
  stays_within_entry_points m → (∀ a, stays_within_entry_points (k a)) →
  stays_within_entry_points (m ≫= k).
Proof.
  intros Hm Hk s. unfold mbind, Py_bind.
  specialize (Hm s). destruct (m s) as [[a|e] s1]; simpl in *.
  - eapply soe_trans; [exact Hm | apply Hk].
  - exact Hm.
Qed.

Lemma swe_if {A} (b : bool) (m1 m2 : Py pstate A) :
  stays_within_entry_points m1 → stays_within_entry_points m2 →
  stays_within_entry_points (if b then m1 else m2).
Proof. destruct b; auto. Qed.

Lemma swe_try_except {A} (m : Py pstate A) catches (handler : exn → Py pstate A) :
  stays_within_entry_points m → (∀ e, stays_within_entry_points (handler e)) →
  stays_within_entry_points (try_except m catches handler).
Proof.
  intros Hm Hh s. unfold try_except.
  specialize (Hm s). destruct (m s) as [[a|e] s1]; simpl in *; [exact Hm |].
  destruct (catches e); simpl; [| exact Hm].
  eapply soe_trans; [exact Hm | apply Hh].
Qed.

Lemma swe_set_patched b : stays_within_entry_points (set_patched b).
Proof. intros s. apply soe_same_dicts; reflexivity. Qed.

Lemma swe_plog_debug message e : stays_within_entry_points (plog_debug message e).
Proof. intros s. apply soe_same_dicts; reflexivity. Qed.

Lemma swe_getattr_module m name : stays_within_entry_points (getattr_module m name).
Proof.
  intros s. unfold getattr_module.
  destruct (module_dict m s !! name); apply soe_same_dicts; reflexivity.
Qed.

Lemma swe_getitem_builtins name : stays_within_entry_points (getitem_builtins name).
Proof.
  intros s. unfold getitem_builtins.
  destruct (__builtins__ s !! name); apply soe_same_dicts; reflexivity.
Qed.

Lemma swe_new_FunctionWrapper f wr :
  stays_within_entry_points (new_FunctionWrapper f wr).
Proof. intros s. apply soe_same_dicts; reflexivity. Qed.

Lemma swe_get__wrapped__ f : stays_within_entry_points (get__wrapped__ f).
Proof. destruct f; [apply swe_raise | apply swe_ret]. Qed.

Lemma swe_setattr_reload f :
  stays_within_entry_points (setattr_module importlib "reload" f).
Proof.
  intros s. repeat split; simpl; intros k; auto.
  - intros H. apply lookup_insert_ne. congruence.
  - apply is_Some_insert_keeps.
Qed.

Lemma swe_setattr_find_and_load_unlocked f :
  stays_within_entry_points
    (setattr_module importlib__bootstrap "_find_and_load_unlocked" f).
Proof.
  intros s. repeat split; simpl; intros k; auto.
  - intros H. apply lookup_insert_ne. congruence.
  - apply is_Some_insert_keeps.
Qed.

Lemma swe_setitem___import__ f :
  stays_within_entry_points (setitem_builtins "__import__" f).
Proof.
  intros s. repeat split; simpl; intros k; auto.
  - intros H H'. apply lookup_insert_ne. congruence.
  - apply is_Some_insert_keeps.
Qed.

Lemma swe_setitem_reload f :
  stays_within_entry_points (setitem_builtins "reload" f).
Proof.
  intros s. repeat split; simpl; intros k; auto.
  - intros H H'. apply lookup_insert_ne. congruence.
  - apply is_Some_insert_keeps.
Qed.

Create HintDb swe.
#[local] Hint Resolve swe_ret swe_gets swe_set_patched swe_plog_debug
  swe_getattr_module swe_getitem_builtins swe_new_FunctionWrapper
  swe_get__wrapped__ swe_setattr_reload swe_setattr_find_and_load_unlocked
  swe_setitem___import__ swe_setitem_reload : swe.

Ltac swe :=
  repeat first
    [ apply swe_try_except; [| intros ?]
    | apply swe_bind; [| intros ?]
    | apply swe_if
    | solve [auto with swe] ].

(** X14.  From every state and on every runtime, [patch()] and [unpatch()]
    remove no binding from [importlib], [importlib._bootstrap] or
    [__builtins__], and change no binding other than those of the four entry
    points. *)
Theorem patch_and_unpatch_touch_only_entry_points (rt : runtime) (s : pstate) :
  same_outside_entry_points s (snd (patch rt s)) ∧
  same_outside_entry_points s (snd (unpatch rt s)).
Proof.
  split.
  - assert (H : stays_within_entry_points (patch rt))
      by (unfold patch, _patch, wrap_function_wrapper; swe).
    apply H.
  - assert (H : stays_within_entry_points (unpatch rt))
      by (unfold unpatch, _unpatch; swe).
    apply H.
Qed.

(** ** The metrics client's configuration, continued *)

(** X15.  A metrics-specific variable that is set decides its setting, for
    every value (the empty string included) and whatever else the
    environment holds, the generic variable included. *)
Theorem metrics_specific_variable_wins (environ : gmap string string) (v : string) :
  DEFAULT_METRICS_HOSTNAME (<["LIGHTSTEP_METRICS_HOST" := v]> environ) = v ∧
  DEFAULT_METRICS_PORT (<["LIGHTSTEP_METRICS_PORT" := v]> environ) = v ∧
  DEFAULT_METRICS_SECURE (<["LIGHTSTEP_METRICS_SECURE" := v]> environ) = v ∧
  TOKEN (<["LIGHTSTEP_ACCESS_TOKEN" := v]> environ) = v.
Proof.
  unfold DEFAULT_METRICS_HOSTNAME, DEFAULT_METRICS_PORT, DEFAULT_METRICS_SECURE,
    TOKEN, environ_get.
  rewrite !lookup_insert_eq. repeat split.
Qed.

Lemma environ_get_chain_local (environ environ' : gmap string string)
    (metrics_specific generic hard_default : string) :
  environ !! metrics_specific = environ' !! metrics_specific →
  environ !! generic = environ' !! generic →
  environ_get environ metrics_specific (environ_get environ generic hard_default) =
  environ_get environ' metrics_specific (environ_get environ' generic hard_default).
Proof. intros H1 H2. unfold environ_get. rewrite H1, H2. reflexivity. Qed.

(** X16.  Each setting depends on its own variables only: two environments
    that agree on the metrics-specific and the generic variable of a setting
    give that setting the same value, and the token depends on
    [LIGHTSTEP_ACCESS_TOKEN] alone. *)
Theorem metrics_settings_depend_on_own_variables
    (environ environ' : gmap string string) :
  (environ !! "LIGHTSTEP_METRICS_HOST" = environ' !! "LIGHTSTEP_METRICS_HOST" →
   environ !! "LIGHTSTEP_HOST" = environ' !! "LIGHTSTEP_HOST" →
   DEFAULT_METRICS_HOSTNAME environ = DEFAULT_METRICS_HOSTNAME environ') ∧
  (environ !! "LIGHTSTEP_METRICS_PORT" = environ' !! "LIGHTSTEP_METRICS_PORT" →
   environ !! "LIGHTSTEP_PORT" = environ' !! "LIGHTSTEP_PORT" →
   DEFAULT_METRICS_PORT environ = DEFAULT_METRICS_PORT environ') ∧
  (environ !! "LIGHTSTEP_METRICS_SECURE" = environ' !! "LIGHTSTEP_METRICS_SECURE" →
   environ !! "LIGHTSTEP_SECURE" = environ' !! "LIGHTSTEP_SECURE" →
   DEFAULT_METRICS_SECURE environ = DEFAULT_METRICS_SECURE environ') ∧
  (environ !! "LIGHTSTEP_ACCESS_TOKEN" = environ' !! "LIGHTSTEP_ACCESS_TOKEN" →
   TOKEN environ = TOKEN environ').
Proof.
  repeat split; try apply environ_get_chain_local.
  intros H. unfold TOKEN, environ_get. rewrite H. reflexivity.
Qed.

(** *** Sample runs *)

(** X16, sample run: setting the port variables leaves the host as it is. *)
Lemma metrics_settings_depend_on_own_variables_witness :
  let environ : gmap string string := {[ "LIGHTSTEP_HOST" := "collector.example" ]} in
  let environ' := <["LIGHTSTEP_METRICS_PORT" := "8443"]> environ in
  environ !! "LIGHTSTEP_METRICS_HOST" = environ' !! "LIGHTSTEP_METRICS_HOST" ∧
  environ !! "LIGHTSTEP_HOST" = environ' !! "LIGHTSTEP_HOST" ∧
  DEFAULT_METRICS_HOSTNAME environ = DEFAULT_METRICS_HOSTNAME environ'.
Proof.
  intros environ environ'.
  assert (H1 : environ !! "LIGHTSTEP_METRICS_HOST" =
               environ' !! "LIGHTSTEP_METRICS_HOST") by reflexivity.
  assert (H2 : environ !! "LIGHTSTEP_HOST" = environ' !! "LIGHTSTEP_HOST")
    by reflexivity.
  split; [exact H1 |]. split; [exact H2 |].
  exact (proj1 (metrics_settings_depend_on_own_variables environ environ') H1 H2).
Defined.

(** X7, sample run: Python 3.7 and Python 2.7. *)
Lemma patch_then_unpatch_round_trip_witness :
  (_patched fresh_py3 = false ∧
   PY3 python_3_7 = true ∧
   tuple_le [3; 4] (version_info python_3_7) &&
     tuple_le (version_info python_3_7) [3; 8] = true ∧
   importlib_dict (snd (unpatch python_3_7 (snd (patch python_3_7 fresh_py3))))
     = importlib_dict fresh_py3) ∧
  (_patched fresh_py2 = false ∧
   PY3 python_2_7 = false ∧
   tuple_le [2; 7] (version_info python_2_7) = true ∧
   __builtins__ (snd (unpatch python_2_7 (snd (patch python_2_7 fresh_py2))))
     = __builtins__ fresh_py2).
Proof.
  split.
  - repeat (split; [reflexivity |]).
    rewrite (proj1 (patch_then_unpatch_round_trip python_3_7 fresh_py3
                      (Function 1) (Function 2) eq_refl)
               eq_refl eq_refl eq_refl eq_refl).
    reflexivity.
  - repeat (split; [reflexivity |]).
    rewrite (proj2 (patch_then_unpatch_round_trip python_2_7 fresh_py2
                      (Function 3) (Function 4) eq_refl)
               eq_refl eq_refl eq_refl eq_refl eq_refl).
    reflexivity.
Defined.

(** X8, sample run: Python 3.7. *)
Lemma patch_unpatch_patch_single_layer_witness :
  _patched fresh_py3 = false ∧
  PY3 python_3_7 = true ∧
  importlib_dict
    (snd (patch python_3_7
            (snd (unpatch python_3_7 (snd (patch python_3_7 fresh_py3))))))
    !! "reload" = Some (FunctionWrapper 13 (Function 2) W_reload).
Proof.
  repeat (split; [reflexivity |]).
  apply (patch_unpatch_patch_single_layer python_3_7 fresh_py3
           (Function 1) (Function 2)); reflexivity.
Defined.

(** X10, sample run: Python 3.3, where [importlib.reload] is missing. *)
Lemma patch_failure_keeps_first_wrapper_witness :
  _patched fresh_py3_3 = false ∧
  PY3 python_3_3 = true ∧
  importlib_dict fresh_py3_3 !! "reload" = None ∧
  importlib__bootstrap_dict (snd (patch python_3_3 (snd (patch python_3_3 fresh_py3_3))))
    !! "_find_and_load_unlocked" =
    Some (FunctionWrapper 11
            (FunctionWrapper 10 (Function 1) W_find_and_load_unlocked)
            W_find_and_load_unlocked).
Proof.
  repeat (split; [reflexivity |]).
  apply (proj2 (patch_failure_keeps_first_wrapper python_3_3 fresh_py3_3
                  (Function 1) eq_refl eq_refl eq_refl eq_refl)).
Defined.

(** X11, sample run: Python 2.6. *)
Lemma patch_on_runtime_before_2_7_witness :
  _patched fresh_py2 = false ∧
  PY3 python_2_6 = false ∧
  tuple_le [2; 7] (version_info python_2_6) = false ∧
  unpatch python_2_6 (snd (patch python_2_6 fresh_py2)) = (Returns tt, fresh_py2).
Proof.
  repeat (split; [reflexivity |]).
  apply (proj2 (patch_on_runtime_before_2_7 python_2_6 fresh_py2
                  eq_refl eq_refl eq_refl)).
Defined.

(** X12, sample run: Python 3.9. *)
Lemma unpatch_after_patch_from_python_3_8_witness :
  _patched fresh_py3 = false ∧
  version_info python_3_9 = [3; 9; 0] ∧
  __builtins__ fresh_py3 !! "reload" = None ∧
  importlib_dict (snd (unpatch python_3_9 (snd (patch python_3_9 fresh_py3))))
    !! "reload" = Some (FunctionWrapper 11 (Function 2) W_reload).
Proof.
  repeat (split; [reflexivity |]).
  rewrite (unpatch_after_patch_from_python_3_8 python_3_9 fresh_py3 9 0
             (Function 1) (Function 2) (Function 3)
             eq_refl eq_refl eq_refl ltac:(lia) eq_refl eq_refl eq_refl eq_refl).
  reflexivity.
Defined.

(** X13, sample run: Python 3.7 keeps [__builtins__], Python 2.7 keeps
    [importlib]. *)
Lemma patch_keeps_to_its_variant_witness :
  (PY3 python_3_7 = true ∧
   __builtins__ (snd (patch python_3_7 fresh_py3)) = __builtins__ fresh_py3) ∧
  (PY3 python_2_7 = false ∧
   importlib_dict (snd (patch python_2_7 fresh_py2)) = importlib_dict fresh_py2).
Proof.
  split; (split; [reflexivity |]).
  - apply (proj1 (patch_keeps_to_its_variant python_3_7 fresh_py3) eq_refl).
  - apply (proj1 (proj2 (patch_keeps_to_its_variant python_2_7 fresh_py2) eq_refl)).
Defined.
